(** * computeSales: a shallow embedding of [src/computeSales.py]

    The program joins a price catalogue with a list of sales rows, both read
    from JSON files, skips the rows it cannot use, and reports the total cost
    on the console and in [SalesResults.txt].

    Layout of this file:
    - [Py]: the Python values, exceptions, effects and built-ins the program
      relies on (JSON values, [float()], [str()], [str.strip], [dict.get],
      number formatting);
    - [ComputeSales]: the functions of the source, one definition per source
      function and under the same name, and [run], the script as a process;
    - [Spec]: the quantities the specification talks about, written from its
      words, against which the functions are compared;
    - [Reference]: an executable instance of the built-ins that the program
      only passes on, and [Examples]: sample inputs;
    - [MFacts], [Facts], [RunFacts]: lemmas about the effect monad, the two
      loops and the run;
    - [Claims]: one theorem per property of the specification, and
      [Witnesses]: these theorems at the sample inputs;
    - [MoreFacts], [MainFacts], [LoopFacts]: further lemmas, and
      [RunProperties], [RowProperties]: further properties of the script as
      a process, of the Price Map and of the sales rows, with
      [MoreWitnesses].

    Modelling choices:
    - a Python [float] is a binary64 number of the kernel, with its own
      addition and multiplication; a Python [int] is a [Z];
    - printing and file writing are recorded as a list of effects, and an
      exception ends a computation with the effects performed so far;
    - [print], [open] and [write] are taken to succeed: a line that the
      console or the file cannot encode, a results file that cannot be
      opened and a failed flush of the console when the interpreter ends are
      outside the model, and so are strings with a code point of 256 or
      more.  A statement that a function returns, or about the exit code,
      is a statement about a run in which every such operation succeeds;
      the properties of [write_results], of the order of the effects of
      [main] and of the exceptions of the two loops are stated for calls
      that return or from conditions that are enough for the exception, so
      that they do not rest on this choice;
    - reading and parsing a file is outside the program: [main] is given,
      for each path, the parsed value or the exception of the load;
    - the Price Map, a [dict] used as a map from names to prices, is a
      [gmap]; a JSON object keeps its items as an association list. *)

From Stdlib Require Import ZArith Floats Ascii String.
From stdpp Require Import base option strings pretty list gmap.

Set Warnings "-register-all".
Open Scope string_scope.
Open Scope list_scope.

(** ** Python values, effects and built-ins *)
Module Py.

(** What [json.load] returns: [None], [bool], [int] (unbounded), [float]
    (binary64, with [NaN] and the infinities, which Python's parser accepts),
    [str], [list] and [dict].  A [dict] is kept as the list of its items in
    insertion order.  Characters are code points below 256. *)
Inductive json : Type :=
| JNull
| JBool (b : bool)
| JInt (z : Z)
| JFloat (f : float)
| JStr (s : string)
| JList (l : list json)
| JDict (d : list (string * json)).

(** Exception classes that occur in the program, and [SystemExit], which
    [sys.exit] raises. *)
Inductive exc_class : Type :=
| OSError | JSONDecodeError | ValueError | TypeError | OverflowError
| RecursionError | MemoryError.

Inductive exn : Type :=
| SystemExit (code : Z)
| Exc (cls : exc_class) (msg : string).

Definition class_name (c : exc_class) : string :=
  match c with
  | OSError => "OSError" | JSONDecodeError => "json.decoder.JSONDecodeError"
  | ValueError => "ValueError" | TypeError => "TypeError"
  | OverflowError => "OverflowError" | RecursionError => "RecursionError"
  | MemoryError => "MemoryError"
  end.

(** [issubclass c base] for the classes above: [JSONDecodeError] derives from
    [ValueError]; the others are unrelated. *)
Definition issubclass (c base : exc_class) : bool :=
  match c, base with
  | OSError, OSError | JSONDecodeError, JSONDecodeError
  | JSONDecodeError, ValueError | ValueError, ValueError
  | TypeError, TypeError | OverflowError, OverflowError
  | RecursionError, RecursionError | MemoryError, MemoryError => true
  | _, _ => false
  end.

(** Does [except (b1, b2, ...)] catch [e]?  [SystemExit] is not an
    [Exception] and none of the handlers of the program names it. *)
Definition catches (bases : list exc_class) (e : exn) : bool :=
  match e with
  | SystemExit _ => false
  | Exc c _ => existsb (issubclass c) bases
  end.

(** Observable effects, in program order. *)
Inductive effect : Type :=
| Print (line : string)                  (* print(line): the line, then a newline *)
| FileOpenW (path : string)              (* open(path, "w"): create or truncate *)
| FileWrite (path : string) (text : string).

Inductive outcome (A : Type) : Type :=
| Ret (a : A)
| Raise (e : exn).
Arguments Ret {A} a.
Arguments Raise {A} e.

(** A computation: the effects it performed, then its value or the
    exception that ended it. *)
Definition M (A : Type) : Type := list effect * outcome A.

#[global] Instance M_ret : MRet M := λ A a, ([], Ret a).
#[global] Instance M_bind : MBind M := λ A B f m,
  match m with
  | (o, Ret a) => let '(o', r) := f a in (o ++ o', r)
  | (o, Raise e) => (o, Raise e)
  end.

#[global] Instance M_fmap : FMap M := λ A B f m,
  match m with
  | (o, Ret a) => (o, Ret (f a))
  | (o, Raise e) => (o, Raise e)
  end.

(** [print(line)], taken to succeed: the [UnicodeEncodeError] of a line that
    the console cannot encode is not modelled. *)
Definition print (line : string) : M () := ([Print line], Ret ()).
Definition raise {A} (e : exn) : M A := ([], Raise e).

(** [try: m  except bases as e: handler e] *)
Definition try_except {A} (m : M A) (bases : list exc_class)
    (handler : exn → M A) : M A :=
  match m with
  | (o, Raise e) =>
      if catches bases e then let '(o', r) := handler e in (o ++ o', r)
      else (o, Raise e)
  | returned => returned
  end.

(** [for idx, x in enumerate(l, start=idx): st = body idx x st] *)
Fixpoint for_each {A St} (body : nat → A → St → M St) (idx : nat) (l : list A)
    (st : St) : M St :=
  match l with
  | [] => mret st
  | x :: l' => st' ← body idx x st; for_each body (S idx) l' st'
  end.

(** The lines printed by the effects [o]. *)
Definition printed (o : list effect) : list string :=
  omap (λ e, match e with Print s => Some s | _ => None end) o.

(** The content of the file [path] after the effects [o], from its content
    [prior] before them ([None]: no such file). *)
Definition file_after (path : string) (prior : option string) (o : list effect)
    : option string :=
  foldl (λ content e,
    match e with
    | FileOpenW p => if String.eqb p path then Some "" else content
    | FileWrite p text =>
        if String.eqb p path then (λ c, c +:+ text) <$> content else content
    | Print _ => content
    end) prior o.

(** *** [dict.get] *)
Fixpoint dict_lookup (d : list (string * json)) (key : string) : option json :=
  match d with
  | [] => None
  | (k, v) :: d' => if String.eqb k key then Some v else dict_lookup d' key
  end.

(** [d.get(key, dflt)]; [d.get(key)] is [dict_get d key JNull]. *)
Definition dict_get (d : list (string * json)) (key : string) (dflt : json) : json :=
  default dflt (dict_lookup d key).

(** *** [str.strip]

    The white space of [str.strip] among the code points below 256:
    U+0009..U+000D, U+001C..U+0020, U+0085 and U+00A0. *)
Definition isspace (a : ascii) : bool :=
  let n := N_of_ascii a in
  ((9 <=? n) && (n <=? 13) || (28 <=? n) && (n <=? 32)
   || (n =? 133) || (n =? 160))%N.

Fixpoint lstrip (s : string) : string :=
  match s with
  | String a s' => if isspace a then lstrip s' else s
  | EmptyString => EmptyString
  end.

Fixpoint rstrip (s : string) : string :=
  match s with
  | String a s' =>
      match rstrip s' with
      | EmptyString => if isspace a then EmptyString else String a EmptyString
      | r => String a r
      end
  | EmptyString => EmptyString
  end.

Definition strip (s : string) : string := rstrip (lstrip s).

(** Truth value of a [str]: false exactly for the empty string. *)
Definition str_bool (s : string) : bool :=
  match s with EmptyString => false | _ => true end.

(** *** Numbers *)

(** [float(n)] for an [int]: the nearest binary64 number, ties to even;
    [None] stands for [OverflowError], raised when that number would not be
    finite. *)
Definition float_of_int (z : Z) : option float :=
  match binary_normalize prec emax z 0 false with
  | S754_infinity _ => None
  | sf => Some (SF2Prim sf)
  end.

(** Nearest integer to [a / b] for [0 < b], ties to even. *)
Definition div_half_even (a b : Z) : Z :=
  let q := (a / b)%Z in
  match (2 * (a mod b) ?= b)%Z with
  | Lt => q
  | Gt => (q + 1)%Z
  | Eq => if Z.even q then q else (q + 1)%Z
  end.

(** [m * 2^e * 10^k] rounded to an integer. *)
Definition scaled (m : positive) (e : Z) (k : nat) : Z :=
  if (0 <=? e)%Z then (Z.pos m * 2 ^ e * 10 ^ Z.of_nat k)%Z
  else div_half_even (Z.pos m * 10 ^ Z.of_nat k) (2 ^ (- e)).

Fixpoint zeros (n : nat) : string :=
  match n with O => "" | S n' => String "0" (zeros n') end.

(** [s] padded with zeros on the left up to [k] characters. *)
Definition zfill (k : nat) (s : string) : string :=
  zeros (k - String.length s) +:+ s.

Definition sign_str (s : bool) : string := if s then "-" else "".

(** [format(x, ".kf")]: fixed notation with [k] digits after the point, the
    exact binary value rounded to nearest with ties to even. *)
Definition format_f (k : nat) (x : float) : string :=
  let frac (n : Z) :=
    match k with
    | O => ""
    | _ => "." +:+ zfill k (pretty (n mod 10 ^ Z.of_nat k)%Z)
    end in
  match Prim2SF x with
  | S754_nan => "nan"
  | S754_infinity s => sign_str s +:+ "inf"
  | S754_zero s => sign_str s +:+ "0" +:+ frac 0%Z
  | S754_finite s m e =>
      let n := scaled m e k in
      sign_str s +:+ pretty (n / 10 ^ Z.of_nat k)%Z +:+ frac n
  end.

(** The built-ins whose result the program only passes on.  Every theorem
    below holds whatever they return. *)
Class Builtins : Type := {
  (** [float(s)] for a [str]; [None] stands for [ValueError]. *)
  float_of_str : string → option float;
  (** [repr(s)] for a [str]. *)
  str_repr : string → string;
  (** [str(v)] for a [float], a [list] or a [dict]; [None] when it raises
      (a [RecursionError] on a deeply nested value). *)
  container_str : json → option string;
  (** [format(x, "g")]. *)
  format_g : float → string;
}.

Section WithBuiltins.
Context `{Builtins}.

(** [float(v)] *)
Definition float_ (v : json) : M float :=
  match v with
  | JBool b => mret (if b then 1%float else 0%float)
  | JInt z =>
      match float_of_int z with
      | Some x => mret x
      | None => raise (Exc OverflowError "int too large to convert to float")
      end
  | JFloat x => mret x
  | JStr s =>
      match float_of_str s with
      | Some x => mret x
      | None =>
          raise (Exc ValueError ("could not convert string to float: " +:+ str_repr s))
      end
  | JNull =>
      raise (Exc TypeError
        "float() argument must be a string or a real number, not 'NoneType'")
  | JList _ =>
      raise (Exc TypeError
        "float() argument must be a string or a real number, not 'list'")
  | JDict _ =>
      raise (Exc TypeError
        "float() argument must be a string or a real number, not 'dict'")
  end.

(** [str(v)]; [None] when it raises. *)
Definition str_ (v : json) : option string :=
  match v with
  | JNull => Some "None"
  | JBool true => Some "True"
  | JBool false => Some "False"
  | JInt z => Some (pretty z)
  | JStr s => Some s
  | JFloat _ | JList _ | JDict _ => container_str v
  end.

End WithBuiltins.
End Py.

(** ** The program *)
Module ComputeSales.
Import Py.

Definition RESULTS_FILENAME : string := "SalesResults.txt".

(** A validated sale line. *)
Record SaleLine : Type := {
  sale_id : string;
  sale_date : string;
  product : string;
  quantity : float;
}.

(** What opening a path and parsing its content as JSON gives: the parsed
    value, or the exception ([OSError] when the file cannot be read,
    [JSONDecodeError] or [ValueError] when its content is not JSON, ...) with
    its message. *)
Definition files : Type := string → (exc_class * string) + json.

Definition newline : string := String "010"%char EmptyString.

(** [sys.exit(code)] *)
Definition sys_exit {A} (code : Z) : M A := raise (SystemExit code).

(** [str(exc)] *)
Definition exc_str (e : exn) : string :=
  match e with
  | Exc _ msg => msg
  | SystemExit code => pretty code
  end.

Section Program.
Context `{Builtins}.

Definition _safe_str (value : json) : string :=
  match str_ value with
  | Some s => s
  | None => "<unprintable>"
  end.

Definition load_json_file (fs : files) (path : string) : M json :=
  match fs path with
  | inr value => mret value
  | inl (cls, msg) => raise (Exc cls msg)
  end.

(** The body of the loop of [build_price_map]: the map after the row. *)
Definition build_price_map_row (idx : nat) (item : json)
    (prices : gmap string float) : M (gmap string float) :=
  match item with
  | JDict d =>
      let title := dict_get d "title" JNull in
      let price := dict_get d "price" JNull in
      match title with
      | JStr t =>
          if negb (str_bool (strip t)) then
            print ("[Catalogue row " +:+ pretty idx
                   +:+ "] Missing/invalid 'title'. Skipping.");;
            mret prices
          else
            converted ← try_except (Some <$> float_ price) [TypeError; ValueError]
              (λ _,
                 print ("[Catalogue row " +:+ pretty idx
                        +:+ "] Invalid 'price' for title '" +:+ t +:+ "': "
                        +:+ _safe_str price +:+ ". Skipping.");;
                 mret None);
            match converted with
            | None => mret prices
            | Some price_num => mret (<[strip t := price_num]> prices)
            end
      | _ =>
          print ("[Catalogue row " +:+ pretty idx
                 +:+ "] Missing/invalid 'title'. Skipping.");;
          mret prices
      end
  | _ =>
      print ("[Catalogue row " +:+ pretty idx
             +:+ "] Invalid item (not an object). Skipping.");;
      mret prices
  end.

Definition build_price_map (catalogue_json : json) : M (gmap string float) :=
  match catalogue_json with
  | JList items => for_each build_price_map_row 1 items ∅
  | _ =>
      raise (Exc ValueError "Price catalogue JSON must be a list of product objects.")
  end.

(** The [Quantity] coercion of [parse_sale_line], with its handler:
    [None] when the handler ran. *)
Definition coerce_quantity (row_num : nat) (product : string) (quantity : json)
    : M (option float) :=
  try_except (Some <$> float_ quantity) [TypeError; ValueError]
    (λ _,
       print ("[Sales row " +:+ pretty row_num
              +:+ "] Invalid 'Quantity' for product '" +:+ product +:+ "': "
              +:+ _safe_str quantity +:+ ". Skipping.");;
       mret None).

Definition parse_sale_line (raw : json) (row_num : nat) : M (option SaleLine) :=
  match raw with
  | JDict d =>
      let product := dict_get d "Product" JNull in
      let quantity := dict_get d "Quantity" JNull in
      match product with
      | JStr p =>
          if negb (str_bool (strip p)) then
            print ("[Sales row " +:+ pretty row_num
                   +:+ "] Missing/invalid 'Product'. Skipping.");;
            mret None
          else
            (* the source coerces the quantity twice, with the same handler *)
            first ← coerce_quantity row_num p quantity;
            match first with
            | None => mret None
            | Some _ =>
                second ← coerce_quantity row_num p quantity;
                match second with
                | None => mret None
                | Some qty =>
                    let sale_id := _safe_str (dict_get d "SALE_ID" (JStr "N/A")) in
                    let sale_date := _safe_str (dict_get d "SALE_Date" (JStr "N/A")) in
                    mret (Some {| sale_id := sale_id; sale_date := sale_date;
                                  product := strip p; quantity := qty |})
                end
            end
      | _ =>
          print ("[Sales row " +:+ pretty row_num
                 +:+ "] Missing/invalid 'Product'. Skipping.");;
          mret None
      end
  | _ =>
      print ("[Sales row " +:+ pretty row_num
             +:+ "] Invalid row (not an object). Skipping.");;
      mret None
  end.

(** The variables of the loop of [compute_total]. *)
Record totals : Type := {
  total : float;
  detail_lines : list string;
  valid_rows : nat;
}.

Definition detail_line (sale : SaleLine) (unit_price line_total : float) : string :=
  "- SALE_ID=" +:+ sale_id sale +:+ " | DATE=" +:+ sale_date sale +:+ " | "
  +:+ "PRODUCT='" +:+ product sale +:+ "' | QTY=" +:+ format_g (quantity sale) +:+ " | "
  +:+ "UNIT=" +:+ format_f 2 unit_price +:+ " | LINE_TOTAL=" +:+ format_f 2 line_total.

Definition compute_total_row (prices : gmap string float) (i : nat)
    (raw_row : json) (st : totals) : M totals :=
  sale ← parse_sale_line raw_row i;
  match sale with
  | None => mret st
  | Some sale =>
      let valid_rows := S (valid_rows st) in
      match prices !! product sale with
      | None =>
          print ("[Sales row " +:+ pretty i
                 +:+ "] Product not found in catalogue: '" +:+ product sale +:+ "'. "
                 +:+ "Skipping.");;
          mret {| total := total st; detail_lines := detail_lines st;
                  valid_rows := valid_rows |}
      | Some unit_price =>
          let line_total := (unit_price * quantity sale)%float in
          mret {| total := (total st + line_total)%float;
                  detail_lines :=
                    detail_lines st ++ [detail_line sale unit_price line_total];
                  valid_rows := valid_rows |}
      end
  end.

Definition compute_total (prices : gmap string float) (sales_json : json)
    : M (float * list string) :=
  match sales_json with
  | JList rows =>
      st ← for_each (compute_total_row prices) 1 rows
             {| total := 0%float; detail_lines := []; valid_rows := 0 |};
      mret (total st,
            ("VALID_SALES_ROWS: " +:+ pretty (valid_rows st)) :: detail_lines st)
  | _ => raise (Exc ValueError "Sales record JSON must be a list of sale objects.")
  end.

(** The lines of the report. *)
Definition report_lines (total : float) (details : list string)
    (elapsed_seconds : float) : list string :=
  ["SALES SUMMARY"; "============="] ++ details
  ++ [""; "TOTAL_COST: " +:+ format_f 2 total;
      "ELAPSED_SECONDS: " +:+ format_f 6 elapsed_seconds].

(** Opening the results file and writing to it are taken to succeed, as
    printing is. *)
Definition write_results (total : float) (details : list string)
    (elapsed_seconds : float) : M () :=
  let lines := report_lines total details elapsed_seconds in
  for_each (λ _ line _, print line) 0 lines ();;
  ([FileOpenW RESULTS_FILENAME], Ret ());;
  for_each (λ _ line _, ([FileWrite RESULTS_FILENAME (line +:+ newline)], Ret ()))
    0 lines ().

(** [main], given [sys.argv], the files to read and the two readings of
    [time.perf_counter]. *)
Definition main (argv : list string) (fs : files) (t_start t_end : float) : M () :=
  if negb (length argv =? 3)%nat then
    print "Usage: python computeSales.py priceCatalogue.json salesRecord.json";;
    sys_exit 1
  else
    let catalogue_path := nth 1 argv "" in
    let sales_path := nth 2 argv "" in
    let start := t_start in
    catalogue_json ←
      try_except (load_json_file fs catalogue_path) [OSError; JSONDecodeError; ValueError]
        (λ exc,
           print ("Error reading catalogue file '" +:+ catalogue_path +:+ "': "
                  +:+ exc_str exc);;
           sys_exit 1);
    sales_json ←
      try_except (load_json_file fs sales_path) [OSError; JSONDecodeError; ValueError]
        (λ exc,
           print ("Error reading sales file '" +:+ sales_path +:+ "': "
                  +:+ exc_str exc);;
           sys_exit 1);
    prices ← build_price_map catalogue_json;
    result ←
      try_except (compute_total prices sales_json) [ValueError]
        (λ exc,
           print ("Error processing data: " +:+ exc_str exc);;
           sys_exit 1);
    let elapsed := (t_end - start)%float in
    write_results result.1 result.2 elapsed.

(** What a run of the script leaves behind. *)
Record process : Type := {
  stdout : list string;            (* the lines printed *)
  stderr : list string;            (* the interpreter's report of an uncaught exception *)
  exit_code : Z;
  results_file : option string;    (* SalesResults.txt after the run *)
}.

(** The last line of the traceback that the interpreter prints for an
    uncaught exception (the stack lines before it are left out). *)
Definition uncaught_report (cls : exc_class) (msg : string) : list string :=
  [class_name cls +:+ ": " +:+ msg].

(** [python computeSales.py ...]: [main()] is called at top level; an
    uncaught exception is reported on standard error and the exit code is 1;
    [SystemExit] sets the exit code and reports nothing.  [prior] is the
    content of [SalesResults.txt] before the run.  The flush of the console
    when the interpreter ends is taken to succeed. *)
Definition run (argv : list string) (fs : files) (prior : option string)
    (t_start t_end : float) : process :=
  let '(o, r) := main argv fs t_start t_end in
  {| stdout := printed o;
     stderr := match r with Raise (Exc cls msg) => uncaught_report cls msg | _ => [] end;
     exit_code :=
       match r with
       | Ret _ => 0
       | Raise (SystemExit code) => code
       | Raise (Exc _ _) => 1
       end;
     results_file := file_after RESULTS_FILENAME prior o |}.

End Program.
End ComputeSales.

(** ** The quantities of the specification *)
Module Spec.
Import Py ComputeSales.

Section Spec.
Context `{Builtins}.

(** The Sale Line of a row that passes row-level validation. *)
Definition sale_of (raw : json) : option SaleLine :=
  match parse_sale_line raw 1 with
  | (_, Ret (Some sale)) => Some sale
  | _ => None
  end.

(** The sales rows that pass row-level validation, in input order. *)
Definition valid_sales (rows : list json) : list SaleLine := omap sale_of rows.

(** Sum of a sequence of floats, taken in order from [0.0]. *)
Definition fsum (l : list float) : float := foldl PrimFloat.add 0%float l.

(** The product of the Sale Line is a key of the Price Map. *)
Definition priced (prices : gmap string float) (sale : SaleLine) : Prop :=
  is_Some (prices !! product sale).

Definition unit_price (prices : gmap string float) (name : string) : float :=
  default 0%float (prices !! name).

(** Sum of unit_price x quantity over the validated rows whose product is
    in the Price Map. *)
Definition total_cost (prices : gmap string float) (rows : list json) : float :=
  fsum ((λ sale, unit_price prices (product sale) * quantity sale)%float
          <$> filter (priced prices) (valid_sales rows)).

(** The entry a catalogue row contributes: its trimmed title and coerced
    price, when it is an object with a non-blank string title and a price
    that converts to a number. *)
Definition catalogue_entry (item : json) : option (string * float) :=
  match item with
  | JDict d =>
      match dict_get d "title" JNull with
      | JStr t =>
          if str_bool (strip t) then
            match float_ (dict_get d "price" JNull) with
            | (_, Ret price) => Some (strip t, price)
            | _ => None
            end
          else None
      | _ => None
      end
  | _ => None
  end.

(** The diagnostic of a validated row whose product is unknown. *)
Definition unknown_product (row_num : nat) (name : string) : string :=
  "[Sales row " +:+ pretty row_num +:+ "] Product not found in catalogue: '"
  +:+ name +:+ "'. Skipping.".

(** The report without its last line. *)
Definition report_head (total : float) (details : list string) : list string :=
  ["SALES SUMMARY"; "============="] ++ details
  ++ [""; "TOTAL_COST: " +:+ format_f 2 total].

(** The text of a file made of the given lines, each one followed by a
    line feed (U+000A). *)
Definition file_text (lines : list string) : string :=
  foldr (λ line rest, line +:+ String "010"%char rest) "" lines.

Definition elapsed_line (elapsed_seconds : float) : string :=
  "ELAPSED_SECONDS: " +:+ format_f 6 elapsed_seconds.

(** How [float()] can end on a JSON value. *)
Inductive float_result (v : json) : outcome float → Prop :=
| float_ok x : float_result v (Ret x)
| float_type_error msg : float_result v (Raise (Exc TypeError msg))
| float_value_error msg : float_result v (Raise (Exc ValueError msg))
| float_overflow z msg :
    v = JInt z → float_of_int z = None →
    float_result v (Raise (Exc OverflowError msg)).

(** The Sale Line built from an object whose quantity converted to [q]. *)
Definition sale_line (d : list (string * json)) (p : string) (q : float) : SaleLine :=
  {| sale_id := _safe_str (dict_get d "SALE_ID" (JStr "N/A"));
     sale_date := _safe_str (dict_get d "SALE_Date" (JStr "N/A"));
     product := strip p;
     quantity := q |}.

(** [v] is not an integer beyond the range of a float, on which [float()]
    raises [OverflowError]. *)
Definition int_in_range (v : json) : Prop :=
  ∀ z, v = JInt z → is_Some (float_of_int z).

(** The [Quantity] of a sales row, the [price] of a catalogue row, is in
    range. *)
Definition quantity_in_range (raw : json) : Prop :=
  ∀ d, raw = JDict d → int_in_range (dict_get d "Quantity" JNull).

Definition price_in_range (item : json) : Prop :=
  ∀ d, item = JDict d → int_in_range (dict_get d "price" JNull).

(** The detail line of a validated row, if its product is priced. *)
Definition detail_of (prices : gmap string float) (sale : SaleLine) : option string :=
  price ← prices !! product sale;
  Some (detail_line sale price (price * quantity sale)%float).

(** Storing a catalogue entry in the Price Map. *)
Definition store (prices : gmap string float) (entry : string * float)
    : gmap string float :=
  <[entry.1 := entry.2]> prices.

(** What [main] does before the report; the clock is not involved. *)
Definition before_report (argv : list string) (fs : files) : M (float * list string) :=
  if negb (length argv =? 3)%nat then
    print "Usage: python computeSales.py priceCatalogue.json salesRecord.json";;
    sys_exit 1
  else
    catalogue_json ←
      try_except (load_json_file fs (nth 1 argv "")) [OSError; JSONDecodeError; ValueError]
        (λ exc,
           print ("Error reading catalogue file '" +:+ nth 1 argv "" +:+ "': "
                  +:+ exc_str exc);;
           sys_exit 1);
    sales_json ←
      try_except (load_json_file fs (nth 2 argv "")) [OSError; JSONDecodeError; ValueError]
        (λ exc,
           print ("Error reading sales file '" +:+ nth 2 argv "" +:+ "': "
                  +:+ exc_str exc);;
           sys_exit 1);
    prices ← build_price_map catalogue_json;
    try_except (compute_total prices sales_json) [ValueError]
      (λ exc,
         print ("Error processing data: " +:+ exc_str exc);;
         sys_exit 1).

End Spec.
End Spec.

(** ** A reference instance of the built-ins

    Used to run the program on examples.  It follows CPython 3.11 on
    strings of code points below 256. *)
Module Reference.
Import Py.

Definition is_digit (a : ascii) : bool :=
  let n := N_of_ascii a in ((48 <=? n) && (n <=? 57))%N.

Definition digit_value (a : ascii) : Z := Z.of_N (N_of_ascii a) - 48.

(** The white space [float()] strips: after its translation of non-ASCII
    white space to blanks, that of C's [isspace]. *)
Definition float_space (a : ascii) : bool :=
  let n := N_of_ascii a in
  ((9 <=? n) && (n <=? 13) || (n =? 32) || (n =? 133) || (n =? 160))%N.

Fixpoint drop_while (p : ascii → bool) (s : string) : string :=
  match s with
  | String a s' => if p a then drop_while p s' else s
  | EmptyString => EmptyString
  end.

Definition float_strip (s : string) : string :=
  String.rev (drop_while float_space (String.rev (drop_while float_space s))).

(** An underscore is allowed between two digits only; the string without
    its underscores. *)
Fixpoint drop_underscores (after_digit : bool) (s : string) : option string :=
  match s with
  | EmptyString => Some EmptyString
  | String a s' =>
      if Ascii.eqb a "_" then
        match s' with
        | String c _ =>
            if after_digit && is_digit c then drop_underscores false s' else None
        | EmptyString => None
        end
      else String a <$> drop_underscores (is_digit a) s'
  end.

(** The leading digits of [s]: how many, their value after [acc], the rest. *)
Fixpoint read_digits (count : nat) (acc : Z) (s : string) : nat * Z * string :=
  match s with
  | String a s' =>
      if is_digit a then read_digits (S count) (10 * acc + digit_value a) s'
      else (count, acc, s)
  | EmptyString => (count, acc, s)
  end.

Definition read_sign (s : string) : bool * string :=
  match s with
  | String "-" s' => (true, s')
  | String "+" s' => (false, s')
  | _ => (false, s)
  end.

Definition lower (a : ascii) : ascii :=
  let n := N_of_ascii a in
  if ((65 <=? n) && (n <=? 90))%N then ascii_of_N (n + 32) else a.

Fixpoint lowercase (s : string) : string :=
  match s with
  | String a s' => String (lower a) (lowercase s')
  | EmptyString => EmptyString
  end.

(** The binary64 number nearest to [(-1)^neg * m * 10^e10], ties to even. *)
Definition decimal_to_float (neg : bool) (m e10 : Z) : float :=
  if (m =? 0)%Z then (if neg then neg_zero else PrimFloat.zero)
  else if (0 <=? e10)%Z then
    SF2Prim (binary_normalize prec emax ((if neg then - m else m) * 10 ^ e10) 0 false)
  else
    let d := (10 ^ (- e10))%Z in
    let s := Z.max 0 (Z.log2 d - Z.log2 m + 64) in
    let q := (m * 2 ^ s / d)%Z in
    let r := ((m * 2 ^ s) mod d)%Z in
    let loc := if (r =? 0)%Z then loc_Exact else loc_Inexact (2 * r ?= d)%Z in
    SF2Prim (binary_round_aux prec emax neg q (- s) loc).

(** [float(s)] *)
Definition float_of_str (s : string) : option float :=
  s ← drop_underscores false (float_strip s);
  let '(neg, body) := read_sign s in
  let word := lowercase body in
  if String.eqb word "inf" || String.eqb word "infinity" then
    Some (if neg then neg_infinity else infinity)
  else if String.eqb word "nan" then Some nan
  else
    let '(ni, int_part, s1) := read_digits 0 0 body in
    let '(nf, mantissa, s2) :=
      match s1 with
      | String "." s1' => read_digits 0 int_part s1'
      | _ => (0%nat, int_part, s1)
      end in
    if (ni + nf =? 0)%nat then None
    else
      match s2 with
      | EmptyString => Some (decimal_to_float neg mantissa (- Z.of_nat nf))
      | String a s3 =>
          if Ascii.eqb (lower a) "e" then
            let '(eneg, s4) := read_sign s3 in
            match read_digits 0 0 s4 with
            | (S _, ex, EmptyString) =>
                Some (decimal_to_float neg mantissa
                        ((if eneg then - ex else ex) - Z.of_nat nf))
            | _ => None
            end
          else None
      end.

(** [10^X <= a / b], for positive [a] and [b]. *)
Definition pow10_le (X a b : Z) : bool :=
  if (0 <=? X)%Z then (b * 10 ^ X <=? a)%Z else (b <=? a * 10 ^ (- X))%Z.

(** The integer part of the decimal logarithm of [a / b]. *)
Definition ilog10 (a b : Z) : Z :=
  let est := ((Z.log2 a - Z.log2 b) * 1233 / 4096)%Z in
  foldl (λ acc X, if pow10_le X a b then X else acc) (est - 3)%Z
    [est - 2; est - 1; est; est + 1; est + 2]%Z.

(** [m * 2^e] as a fraction. *)
Definition fraction (m : positive) (e : Z) : Z * Z :=
  if (0 <=? e)%Z then (Z.pos m * 2 ^ e, 1)%Z else (Z.pos m, 2 ^ (- e))%Z.

(** [a / b * 10^j], rounded down. *)
Definition scale_floor (a b j : Z) : Z :=
  if (0 <=? j)%Z then (a * 10 ^ j / b)%Z else (a / (b * 10 ^ (- j)))%Z.

(** [a / b * 10^j], rounded to nearest, ties to even. *)
Definition scale_round (a b j : Z) : Z :=
  if (0 <=? j)%Z then div_half_even (a * 10 ^ j) b
  else div_half_even a (b * 10 ^ (- j)).

Fixpoint drop_trailing_zeros (fuel : nat) (n : Z) : Z :=
  match fuel with
  | O => n
  | S fuel' =>
      if (n mod 10 =? 0)%Z then drop_trailing_zeros fuel' (n / 10)%Z else n
  end.

(** The text of a number with digits [digits] (no trailing zero) and decimal
    exponent [X] (that of its first digit), with or without an exponent;
    [dot0] asks for [.0] after an integer. *)
Definition render (neg : bool) (digits : string) (X : Z) (use_exp dot0 : bool)
    : string :=
  let len := Z.of_nat (String.length digits) in
  sign_str neg +:+
  (if use_exp then
     String.substring 0 1 digits
     +:+ (if (1 <? len)%Z
          then "." +:+ String.substring 1 (String.length digits - 1) digits
          else "")
     +:+ "e" +:+ (if (X <? 0)%Z then "-" else "+") +:+ zfill 2 (pretty (Z.abs X))
   else if (X <? 0)%Z then
     "0." +:+ zeros (Z.to_nat (- X - 1)) +:+ digits
   else if (len <=? X + 1)%Z then
     digits +:+ zeros (Z.to_nat (X + 1 - len)) +:+ (if dot0 then ".0" else "")
   else
     String.substring 0 (Z.to_nat (X + 1)) digits +:+ "."
     +:+ String.substring (Z.to_nat (X + 1)) (Z.to_nat (len - X - 1)) digits).

(** [format(x, "g")]: six significant digits, trailing zeros removed, an
    exponent below [1e-4] and from [1e6] on. *)
Definition format_g (x : float) : string :=
  match Prim2SF x with
  | S754_nan => "nan"
  | S754_infinity s => sign_str s +:+ "inf"
  | S754_zero s => sign_str s +:+ "0"
  | S754_finite s m e =>
      let '(a, b) := fraction m e in
      let X0 := ilog10 a b in
      let n0 := scale_round a b (5 - X0) in
      let '(n, X) := if (n0 =? 1000000)%Z then (100000, X0 + 1)%Z else (n0, X0) in
      render s (pretty (drop_trailing_zeros 6 n)) X ((X <? -4)%Z || (6 <=? X)%Z) false
  end.

(** The shortest digits that read back as [x], nearest to [x] among those
    of that length, and their number: tried with [d], [d + 1], ... digits. *)
Fixpoint shortest_digits (fuel : nat) (d : Z) (x : float) (a b X : Z) : Z * Z :=
  match fuel with
  | O => (scale_round a b (d - 1 - X), d)
  | S fuel' =>
      let j := (d - 1 - X)%Z in
      let lo := scale_floor a b j in
      let hi := (lo + 1)%Z in
      let back n := PrimFloat.eqb (decimal_to_float false n (- j)) x in
      match back lo, back hi with
      | true, true => (scale_round a b j, d)
      | true, false => (lo, d)
      | false, true => (hi, d)
      | false, false => shortest_digits fuel' (d + 1)%Z x a b X
      end
  end.

(** [repr(x)] for a [float]. *)
Definition float_repr (x : float) : string :=
  match Prim2SF x with
  | S754_nan => "nan"
  | S754_infinity s => sign_str s +:+ "inf"
  | S754_zero s => sign_str s +:+ "0.0"
  | S754_finite s m e =>
      let '(a, b) := fraction m e in
      let X0 := ilog10 a b in
      let '(n, d) := shortest_digits 16 1 (abs x) a b X0 in
      (* rounding up to a power of ten gains a digit *)
      let X := (X0 + (Z.of_nat (String.length (pretty n)) - d))%Z in
      render s (pretty (drop_trailing_zeros 17 n)) X ((X <? -4)%Z || (16 <=? X)%Z) true
  end.

Definition hex_digit (n : N) : ascii :=
  if (n <? 10)%N then ascii_of_N (48 + n) else ascii_of_N (87 + n).

(** [repr(s)] for a [str]: quoted, with the escapes of Python. *)
Definition str_repr (s : string) : string :=
  let has c := existsb (Ascii.eqb c) (list_ascii_of_string s) in
  let quote : ascii := if has "'"%char && negb (has "034"%char) then "034"%char else "'"%char in
  let escape (a : ascii) : string :=
    let n := N_of_ascii a in
    if Ascii.eqb a quote || Ascii.eqb a "\"%char then String "\" (String a "")
    else if (n =? 9)%N then "\t"
    else if (n =? 10)%N then "\n"
    else if (n =? 13)%N then "\r"
    else if (n <? 32)%N || ((127 <=? n) && (n <=? 160))%N || (n =? 173)%N then
      String "\" (String "x" (String (hex_digit (n / 16)) (String (hex_digit (n mod 16)) "")))
    else String a "" in
  String quote (String.concat "" (map escape (list_ascii_of_string s)))
  +:+ String quote "".

(** [repr(v)] *)
Fixpoint repr (v : json) : string :=
  match v with
  | JNull => "None"
  | JBool true => "True"
  | JBool false => "False"
  | JInt z => pretty z
  | JFloat x => float_repr x
  | JStr s => str_repr s
  | JList l => "[" +:+ String.concat ", " (map repr l) +:+ "]"
  | JDict d =>
      "{" +:+ String.concat ", "
                (map (λ kv, str_repr kv.1 +:+ ": " +:+ repr kv.2) d) +:+ "}"
  end.

#[global] Instance builtins : Builtins := {|
  Py.float_of_str := float_of_str;
  Py.str_repr := str_repr;
  Py.container_str := λ v, Some (repr v);
  Py.format_g := format_g;
|}.
End Reference.

(** ** Sample inputs, with what the program makes of them *)
Module Examples.
Import Py ComputeSales Reference.

Definition widget_again : json :=
  JDict [("title", JStr "Widget "); ("price", JFloat 2.5)].

Definition catalogue_before : list json :=
  [JDict [("title", JStr "Widget"); ("price", JStr "9.99")];
   JInt 3;
   JDict [("title", JStr " Gadget "); ("price", JNull)]].

Definition catalogue_after : list json :=
  [JDict [("title", JStr "Gizmo"); ("price", JInt 4)]; JNull].

Definition catalogue_effects : list effect :=
  [Print "[Catalogue row 2] Invalid item (not an object). Skipping.";
   Print "[Catalogue row 3] Invalid 'price' for title ' Gadget ': None. Skipping.";
   Print "[Catalogue row 6] Invalid item (not an object). Skipping."].

Definition prices : gmap string float :=
  <["Gizmo" := 4%float]> (<["Widget" := 2.5%float]> ∅).

Definition returned_row : list (string * json) :=
  [("Product", JStr " Widget"); ("Quantity", JInt (-2)); ("SALE_ID", JInt 7)].

Definition null_id_row : list (string * json) :=
  [("Product", JStr "Nope"); ("Quantity", JInt 2); ("SALE_ID", JNull)].

Definition sales_before : list json :=
  [JDict [("Product", JStr "Widget"); ("Quantity", JInt 3);
          ("SALE_ID", JStr "S1"); ("SALE_Date", JStr "2024-01-01")];
   JDict [("Product", JStr "Nope"); ("Quantity", JStr "abc")];
   JDict null_id_row].

Definition sales : list json := sales_before ++ [JDict returned_row; JStr "x"].

Definition sales_effects : list effect :=
  [Print "[Sales row 2] Invalid 'Quantity' for product 'Nope': abc. Skipping.";
   Print "[Sales row 3] Product not found in catalogue: 'Nope'. Skipping.";
   Print "[Sales row 5] Invalid row (not an object). Skipping."].

Definition sales_details : list string :=
  ["VALID_SALES_ROWS: 3";
   "- SALE_ID=S1 | DATE=2024-01-01 | PRODUCT='Widget' | QTY=3 | UNIT=2.50 | LINE_TOTAL=7.50";
   "- SALE_ID=7 | DATE=N/A | PRODUCT='Widget' | QTY=-2 | UNIT=2.50 | LINE_TOTAL=-5.00"].

Definition sales_before_effects : list effect :=
  [Print "[Sales row 2] Invalid 'Quantity' for product 'Nope': abc. Skipping.";
   Print "[Sales row 3] Product not found in catalogue: 'Nope'. Skipping."].

Definition sales_before_details : list string :=
  ["VALID_SALES_ROWS: 2";
   "- SALE_ID=S1 | DATE=2024-01-01 | PRODUCT='Widget' | QTY=3 | UNIT=2.50 | LINE_TOTAL=7.50"].

(** The effects on [sales] when nothing is priced. *)
Definition unpriced_effects : list effect :=
  [Print "[Sales row 1] Product not found in catalogue: 'Widget'. Skipping.";
   Print "[Sales row 2] Invalid 'Quantity' for product 'Nope': abc. Skipping.";
   Print "[Sales row 3] Product not found in catalogue: 'Nope'. Skipping.";
   Print "[Sales row 4] Product not found in catalogue: 'Widget'. Skipping.";
   Print "[Sales row 5] Invalid row (not an object). Skipping."].

(** A directory in which [c.json] holds an object and [s.json] the sales. *)
Definition fs : files := λ path,
  if String.eqb path "c.json" then inr (JDict [])
  else if String.eqb path "s.json" then inr (JList sales)
  else inl (OSError, "[Errno 2] No such file or directory: '" +:+ path +:+ "'").

End Examples.

(** ** Notions used by the further properties *)
Module MoreSpec.
Import Py ComputeSales.

(** The effects are all [Print]s. *)
Definition prints (o : list effect) : Prop := o = Print <$> printed o.

Section MoreSpec.
Context `{Builtins}.

(** [parse_sale_line] returns on the row, under every row number. *)
Definition parses (raw : json) : Prop :=
  ∀ row_num, ∃ o r, parse_sale_line raw row_num = (o, Ret r).

End MoreSpec.
End MoreSpec.

(** ** More sample inputs *)
Module MoreExamples.
Import Py ComputeSales Spec Reference Examples.

Definition catalogue : list json := catalogue_before ++ widget_again :: catalogue_after.

(** A directory with a catalogue, a sales record and a file holding an
    object. *)
Definition fs2 : files := λ path,
  if String.eqb path "cat.json" then inr (JList catalogue)
  else if String.eqb path "sales.json" then inr (JList sales)
  else if String.eqb path "obj.json" then inr (JDict [])
  else inl (OSError, "[Errno 2] No such file or directory: '" +:+ path +:+ "'").

Definition missing_message : string :=
  "[Errno 2] No such file or directory: 'missing.json'".

Definition rejected_row : json :=
  JDict [("Product", JStr "Nope"); ("Quantity", JStr "abc")].

Definition sales_without_rejected : list json :=
  [JDict [("Product", JStr "Widget"); ("Quantity", JInt 3);
          ("SALE_ID", JStr "S1"); ("SALE_Date", JStr "2024-01-01")];
   JDict null_id_row; JDict returned_row; JStr "x"].

Definition sales_without_rejected_effects : list effect :=
  [Print "[Sales row 2] Product not found in catalogue: 'Nope'. Skipping.";
   Print "[Sales row 4] Invalid row (not an object). Skipping."].

Definition unknown_row : json := JDict null_id_row.

Definition first_sale_details : list string :=
  ["VALID_SALES_ROWS: 1";
   "- SALE_ID=S1 | DATE=2024-01-01 | PRODUCT='Widget' | QTY=3 | UNIT=2.50 | LINE_TOTAL=7.50"].

Definition nan_row : json :=
  JDict [("Product", JStr "Widget"); ("Quantity", JFloat nan)].

Definition nan_sale : SaleLine :=
  {| sale_id := "N/A"; sale_date := "N/A"; product := "Widget"; quantity := nan |}.

Definition nan_details : list string :=
  ["VALID_SALES_ROWS: 4";
   "- SALE_ID=S1 | DATE=2024-01-01 | PRODUCT='Widget' | QTY=3 | UNIT=2.50 | LINE_TOTAL=7.50";
   "- SALE_ID=7 | DATE=N/A | PRODUCT='Widget' | QTY=-2 | UNIT=2.50 | LINE_TOTAL=-5.00";
   "- SALE_ID=N/A | DATE=N/A | PRODUCT='Widget' | QTY=nan | UNIT=2.50 | LINE_TOTAL=nan"].

(** A report: the effects of [write_results] on a total of 7.125 and an
    elapsed time of half a second, and what they leave. *)
Definition line_feed : string := String "010"%char "".

Definition report_printed : list string :=
  ["SALES SUMMARY"; "=============";
   "VALID_SALES_ROWS: 1";
   "- SALE_ID=S1 | DATE=2024-01-01 | PRODUCT='Widget' | QTY=3 | UNIT=2.50 | LINE_TOTAL=7.50";
   "";
   "TOTAL_COST: 7.12";
   "ELAPSED_SECONDS: 0.500000"].

Definition report_effects : list effect :=
  [Print "SALES SUMMARY"; Print "=============";
   Print "VALID_SALES_ROWS: 1";
   Print "- SALE_ID=S1 | DATE=2024-01-01 | PRODUCT='Widget' | QTY=3 | UNIT=2.50 | LINE_TOTAL=7.50";
   Print "";
   Print "TOTAL_COST: 7.12";
   Print "ELAPSED_SECONDS: 0.500000";
   FileOpenW "SalesResults.txt";
   FileWrite "SalesResults.txt" ("SALES SUMMARY" +:+ line_feed);
   FileWrite "SalesResults.txt" ("=============" +:+ line_feed);
   FileWrite "SalesResults.txt" ("VALID_SALES_ROWS: 1" +:+ line_feed);
   FileWrite "SalesResults.txt"
     ("- SALE_ID=S1 | DATE=2024-01-01 | PRODUCT='Widget' | QTY=3 | UNIT=2.50 | LINE_TOTAL=7.50"
      +:+ line_feed);
   FileWrite "SalesResults.txt" line_feed;
   FileWrite "SalesResults.txt" ("TOTAL_COST: 7.12" +:+ line_feed);
   FileWrite "SalesResults.txt" ("ELAPSED_SECONDS: 0.500000" +:+ line_feed)].

Definition report_text : string :=
  "SALES SUMMARY" +:+ line_feed
  +:+ "=============" +:+ line_feed
  +:+ "VALID_SALES_ROWS: 1" +:+ line_feed
  +:+ "- SALE_ID=S1 | DATE=2024-01-01 | PRODUCT='Widget' | QTY=3 | UNIT=2.50 | LINE_TOTAL=7.50"
  +:+ line_feed
  +:+ line_feed
  +:+ "TOTAL_COST: 7.12" +:+ line_feed
  +:+ "ELAPSED_SECONDS: 0.500000" +:+ line_feed.

(** The run on [cat.json] and [sales.json]: a total of 2.5, and half a
    second between the two readings of the clock. *)
Definition run_report_effects : list effect :=
  [Print "SALES SUMMARY"; Print "=============";
   Print "VALID_SALES_ROWS: 3";
   Print "- SALE_ID=S1 | DATE=2024-01-01 | PRODUCT='Widget' | QTY=3 | UNIT=2.50 | LINE_TOTAL=7.50";
   Print "- SALE_ID=7 | DATE=N/A | PRODUCT='Widget' | QTY=-2 | UNIT=2.50 | LINE_TOTAL=-5.00";
   Print "";
   Print "TOTAL_COST: 2.50";
   Print "ELAPSED_SECONDS: 0.500000";
   FileOpenW "SalesResults.txt";
   FileWrite "SalesResults.txt" ("SALES SUMMARY" +:+ line_feed);
   FileWrite "SalesResults.txt" ("=============" +:+ line_feed);
   FileWrite "SalesResults.txt" ("VALID_SALES_ROWS: 3" +:+ line_feed);
   FileWrite "SalesResults.txt"
     ("- SALE_ID=S1 | DATE=2024-01-01 | PRODUCT='Widget' | QTY=3 | UNIT=2.50 | LINE_TOTAL=7.50"
      +:+ line_feed);
   FileWrite "SalesResults.txt"
     ("- SALE_ID=7 | DATE=N/A | PRODUCT='Widget' | QTY=-2 | UNIT=2.50 | LINE_TOTAL=-5.00"
      +:+ line_feed);
   FileWrite "SalesResults.txt" line_feed;
   FileWrite "SalesResults.txt" ("TOTAL_COST: 2.50" +:+ line_feed);
   FileWrite "SalesResults.txt" ("ELAPSED_SECONDS: 0.500000" +:+ line_feed)].

Definition run_printed : list string :=
  ["[Catalogue row 2] Invalid item (not an object). Skipping.";
   "[Catalogue row 3] Invalid 'price' for title ' Gadget ': None. Skipping.";
   "[Catalogue row 6] Invalid item (not an object). Skipping.";
   "[Sales row 2] Invalid 'Quantity' for product 'Nope': abc. Skipping.";
   "[Sales row 3] Product not found in catalogue: 'Nope'. Skipping.";
   "[Sales row 5] Invalid row (not an object). Skipping.";
   "SALES SUMMARY"; "=============";
   "VALID_SALES_ROWS: 3";
   "- SALE_ID=S1 | DATE=2024-01-01 | PRODUCT='Widget' | QTY=3 | UNIT=2.50 | LINE_TOTAL=7.50";
   "- SALE_ID=7 | DATE=N/A | PRODUCT='Widget' | QTY=-2 | UNIT=2.50 | LINE_TOTAL=-5.00";
   "";
   "TOTAL_COST: 2.50";
   "ELAPSED_SECONDS: 0.500000"].

Definition run_text : string :=
  "SALES SUMMARY" +:+ line_feed
  +:+ "=============" +:+ line_feed
  +:+ "VALID_SALES_ROWS: 3" +:+ line_feed
  +:+ "- SALE_ID=S1 | DATE=2024-01-01 | PRODUCT='Widget' | QTY=3 | UNIT=2.50 | LINE_TOTAL=7.50"
  +:+ line_feed
  +:+ "- SALE_ID=7 | DATE=N/A | PRODUCT='Widget' | QTY=-2 | UNIT=2.50 | LINE_TOTAL=-5.00"
  +:+ line_feed
  +:+ line_feed
  +:+ "TOTAL_COST: 2.50" +:+ line_feed
  +:+ "ELAPSED_SECONDS: 0.500000" +:+ line_feed.

(** Rows with an integer of 401 digits. *)
Definition huge_price_row : list (string * json) :=
  [("title", JStr "A"); ("price", JInt (10 ^ 400))].

Definition huge_quantity_row : list (string * json) :=
  [("Product", JStr "A"); ("Quantity", JInt (10 ^ 400))].

End MoreExamples.

(** ** Facts about the effect monad *)
Module MFacts.
Import Py.

Lemma bind_ret {A B} (m : M A) (f : A → M B) o b :
  m ≫= f = (o, Ret b) →
  ∃ o1 a o2, m = (o1, Ret a) ∧ f a = (o2, Ret b) ∧ o = o1 ++ o2.
Proof.
  unfold mbind, M_bind. destruct m as [o1 [a|e]]; [|done].
  destruct (f a) as [o2 r] eqn:Hf. intros [= <- ->]. by exists o1, a, o2.
Qed.

Lemma bind_eq {A B} (m : M A) (f : A → M B) o1 a o2 r :
  m = (o1, Ret a) → f a = (o2, r) → m ≫= f = (o1 ++ o2, r).
Proof. intros -> Hf. unfold mbind, M_bind. by rewrite Hf. Qed.

Lemma bind_raise {A B} (m : M A) (f : A → M B) o e :
  m = (o, Raise e) → m ≫= f = (o, Raise e).
Proof. by intros ->. Qed.

(** A loop over [l1 ++ l2] runs the loop over [l1], then the loop over [l2]
    from the next index. *)
Lemma for_each_app {A St} (body : nat → A → St → M St) l1 l2 idx st :
  for_each body idx (l1 ++ l2) st
  = for_each body idx l1 st ≫= for_each body (idx + length l1) l2.
Proof.
  revert idx st. induction l1 as [|x l1 IH]; intros idx st; simpl.
  - rewrite Nat.add_0_r. unfold mbind, M_bind, mret, M_ret.
    by destruct (for_each body idx l2 st).
  - unfold mbind, M_bind. destruct (body idx x st) as [o [st1|e]]; [|done].
    rewrite IH. replace (idx + S (length l1)) with (S idx + length l1) by lia.
    unfold mbind, M_bind.
    destruct (for_each body (S idx) l1 st1) as [o1 [st2|e]]; [|done].
    destruct (for_each body (S idx + length l1) l2 st2) as [o2 r].
    by rewrite (assoc_L (++)).
Qed.

Lemma bind_assoc {A B C} (m : M A) (f : A → M B) (g : B → M C) :
  (m ≫= f) ≫= g = m ≫= (λ a, f a ≫= g).
Proof.
  unfold mbind, M_bind. destruct m as [o [a|e]]; [|done].
  destruct (f a) as [o1 [b|e]]; [|done].
  destruct (g b) as [o2 r]. by rewrite (assoc_L (++)).
Qed.

Lemma bind_ext {A B} (m : M A) (f g : A → M B) :
  (∀ a, f a = g a) → m ≫= f = m ≫= g.
Proof. intros Hfg. unfold mbind, M_bind. destruct m as [o [a|e]]; [|done]. by rewrite Hfg. Qed.

(** A loop whose body only performs one effect per element. *)
Lemma for_each_effects {A} (eff : A → effect) (l : list A) idx :
  for_each (λ _ x _, ([eff x], Ret ())) idx l () = (eff <$> l, Ret ()).
Proof.
  revert idx. induction l as [|x l IH]; intros idx; [done|].
  simpl. unfold mbind, M_bind. by rewrite IH.
Qed.

Lemma printed_app o1 o2 : printed (o1 ++ o2) = printed o1 ++ printed o2.
Proof. apply omap_app. Qed.

Lemma file_after_app path prior o1 o2 :
  file_after path prior (o1 ++ o2) = file_after path (file_after path prior o1) o2.
Proof. apply foldl_app. Qed.

Lemma printed_Print lines : printed (Print <$> lines) = lines.
Proof. induction lines as [|l lines IH]; [done|]. simpl. f_equal. apply IH. Qed.

Lemma file_after_Print path prior lines :
  file_after path prior (Print <$> lines) = prior.
Proof. revert prior. induction lines as [|l lines IH]; intros prior; [done|]. apply IH. Qed.

End MFacts.

(** ** Facts about the functions of the program *)
Module Facts.
Import Py ComputeSales Spec MFacts.

Section Facts.
Context `{Builtins}.

Lemma float_spec v : ∃ r, float_ v = ([], r) ∧ float_result v r.
Proof.
  destruct v as [|b|z|x|s|l|d]; simpl; unfold raise; eauto using float_result.
  - destruct (float_of_int z) eqn:Hz; eauto using float_result.
  - destruct (float_of_str s); eauto using float_result.
Qed.

Lemma coerce_quantity_spec row_num p v :
  ∃ r, float_ v = ([], r) ∧ float_result v r ∧
  coerce_quantity row_num p v =
    match r with
    | Ret x => ([], Ret (Some x))
    | Raise e =>
        if catches [TypeError; ValueError] e then
          ([Print ("[Sales row " +:+ pretty row_num
                   +:+ "] Invalid 'Quantity' for product '" +:+ p +:+ "': "
                   +:+ _safe_str v +:+ ". Skipping.")], Ret None)
        else ([], Raise e)
    end.
Proof.
  destruct (float_spec v) as (r & Hr & Hres). exists r. split; [done|]. split; [done|].
  unfold coerce_quantity, try_except. rewrite Hr.
  destruct Hres; done.
Qed.

(** The value [parse_sale_line] returns does not depend on the row number,
    which only its diagnostics mention. *)
Lemma parse_sale_line_row_num raw i j :
  (parse_sale_line raw i).2 = (parse_sale_line raw j).2.
Proof.
  unfold parse_sale_line. destruct raw as [| | | | | |d]; try done.
  destruct (dict_get d "Product" JNull) as [| | | |p| |]; try done.
  destruct (negb (str_bool (strip p))); [done|].
  destruct (coerce_quantity_spec i p (dict_get d "Quantity" JNull)) as (r & Hr & _ & Hi).
  destruct (coerce_quantity_spec j p (dict_get d "Quantity" JNull)) as (r' & Hr' & _ & Hj).
  rewrite Hr in Hr'. injection Hr' as <-.
  rewrite Hi, Hj. destruct r as [x|e]; [done|].
  destruct (catches _ e); done.
Qed.

Lemma sale_of_parse raw row_num o r :
  parse_sale_line raw row_num = (o, Ret r) → sale_of raw = r.
Proof.
  intros Hp. unfold sale_of.
  pose proof (parse_sale_line_row_num raw 1 row_num) as Heq. rewrite Hp in Heq.
  destruct (parse_sale_line raw 1) as [o1 r1]. simpl in Heq. subst r1.
  by destruct r.
Qed.

(** A row is accepted, silently, when it is an object whose [Product] is a
    non-blank string and whose [Quantity] converts. *)
Lemma parse_sale_line_accepts d p q row_num :
  dict_get d "Product" JNull = JStr p →
  str_bool (strip p) = true →
  float_ (dict_get d "Quantity" JNull) = ([], Ret q) →
  parse_sale_line (JDict d) row_num = ([], Ret (Some (sale_line d p q))).
Proof.
  intros Hp Hs Hq. unfold parse_sale_line. rewrite Hp, Hs. simpl.
  destruct (coerce_quantity_spec row_num p (dict_get d "Quantity" JNull))
    as (r & Hr & _ & ->).
  rewrite Hq in Hr. injection Hr as <-. done.
Qed.

(** ... and only then. *)
Lemma parse_sale_line_Some raw row_num o sale :
  parse_sale_line raw row_num = (o, Ret (Some sale)) →
  ∃ d p q,
    raw = JDict d ∧ dict_get d "Product" JNull = JStr p ∧
    str_bool (strip p) = true ∧
    float_ (dict_get d "Quantity" JNull) = ([], Ret q) ∧
    o = [] ∧ sale = sale_line d p q.
Proof.
  unfold parse_sale_line. destruct raw as [| | | | | |d]; try done.
  destruct (dict_get d "Product" JNull) as [| | | |p| |] eqn:Hp; try done.
  destruct (str_bool (strip p)) eqn:Hs; [|done]. simpl.
  destruct (coerce_quantity_spec row_num p (dict_get d "Quantity" JNull))
    as (r & Hr & _ & ->).
  destruct r as [q|e]; [|by destruct (catches _ e)].
  intros [= <- <-]. by exists d, p, q.
Qed.

(** The only exception that leaves [parse_sale_line] is the
    [OverflowError] of [float()] on an integer [Quantity] beyond the range
    of a float; nothing is printed before it. *)
Lemma parse_sale_line_Raise raw row_num o e :
  parse_sale_line raw row_num = (o, Raise e) →
  ∃ d p z msg,
    raw = JDict d ∧ dict_get d "Product" JNull = JStr p ∧
    str_bool (strip p) = true ∧
    dict_get d "Quantity" JNull = JInt z ∧ float_of_int z = None ∧
    o = [] ∧ e = Exc OverflowError msg.
Proof.
  unfold parse_sale_line. destruct raw as [| | | | | |d]; try done.
  destruct (dict_get d "Product" JNull) as [| | | |p| |] eqn:Hp; try done.
  destruct (str_bool (strip p)) eqn:Hs; [|done]. simpl.
  destruct (coerce_quantity_spec row_num p (dict_get d "Quantity" JNull))
    as (r & Hr & Hres & ->).
  destruct Hres as [x|msg|msg|z msg Hz Hov]; try done.
  intros [= <- <-]. by exists d, p, z, msg.
Qed.

Lemma parse_sale_line_returns raw row_num :
  quantity_in_range raw → ∃ o r, parse_sale_line raw row_num = (o, Ret r).
Proof.
  intros Hin. destruct (parse_sale_line raw row_num) as [o [r|e]] eqn:Hp; [by eauto|].
  apply parse_sale_line_Raise in Hp as (d & p & z & msg & -> & _ & _ & Hq & Hov & _).
  destruct (Hin d eq_refl z Hq) as [x Hx]. congruence.
Qed.

(** *** The loop of [compute_total] *)

(** One step of the loop, on a row that [parse_sale_line] returns from. *)
Lemma compute_total_row_spec prices i raw st o r :
  parse_sale_line raw i = (o, Ret r) →
  compute_total_row prices i raw st =
    match r with
    | None => (o, Ret st)
    | Some sale =>
        match prices !! product sale with
        | None =>
            (o ++ [Print (unknown_product i (product sale))],
             Ret {| total := total st; detail_lines := detail_lines st;
                    valid_rows := S (valid_rows st) |})
        | Some price =>
            (o, Ret {| total := (total st + price * quantity sale)%float;
                       detail_lines :=
                         detail_lines st
                         ++ [detail_line sale price (price * quantity sale)%float];
                       valid_rows := S (valid_rows st) |})
        end
    end.
Proof.
  intros Hp. unfold compute_total_row. rewrite Hp. unfold mbind, M_bind.
  destruct r as [sale|]; simpl; [|by rewrite app_nil_r].
  destruct (prices !! product sale); simpl; [by rewrite app_nil_r|done].
Qed.

Lemma filter_priced_cons prices sale sales :
  filter (priced prices) (sale :: sales)
  = match prices !! product sale with
    | Some _ => sale :: filter (priced prices) sales
    | None => filter (priced prices) sales
    end.
Proof.
  rewrite filter_cons. case_decide as Hd.
  - destruct Hd as [price Hl]. by rewrite Hl.
  - destruct (prices !! product sale) eqn:Hl; [|done].
    destruct Hd. unfold priced. by rewrite Hl.
Qed.

Lemma filter_priced_empty sales : filter (priced ∅) sales = [].
Proof.
  induction sales as [|sale sales IH]; [done|].
  by rewrite filter_priced_cons, lookup_empty.
Qed.

Lemma omap_detail_of_empty sales : omap (detail_of ∅) sales = [].
Proof.
  induction sales as [|sale sales IH]; [done|].
  simpl. unfold detail_of at 1. by rewrite lookup_empty.
Qed.

(** The state after the loop, when it ends normally. *)
Lemma compute_rows_spec prices rows idx st o st' :
  for_each (compute_total_row prices) idx rows st = (o, Ret st') →
  total st' =
    foldl PrimFloat.add (total st)
      ((λ sale, unit_price prices (product sale) * quantity sale)%float
         <$> filter (priced prices) (valid_sales rows)) ∧
  valid_rows st' = valid_rows st + length (valid_sales rows) ∧
  detail_lines st' = detail_lines st ++ omap (detail_of prices) (valid_sales rows).
Proof.
  revert idx st o. induction rows as [|raw rows IH]; intros idx st o.
  - intros [= <- <-]. simpl. by rewrite Nat.add_0_r, app_nil_r.
  - simpl. intros Hloop.
    apply bind_ret in Hloop as (o1 & st1 & o2 & Hrow & Hrest & ->).
    apply IH in Hrest as (Htot & Hvalid & Hdet).
    destruct (parse_sale_line raw idx) as [op [r|e]] eqn:Hp;
      [|by unfold compute_total_row in Hrow; rewrite Hp in Hrow].
    rewrite (compute_total_row_spec _ _ _ _ _ _ Hp) in Hrow.
    unfold valid_sales in *. simpl. rewrite (sale_of_parse _ _ _ _ Hp).
    destruct r as [sale|]; simpl.
    + rewrite filter_priced_cons.
      assert (detail_of prices sale
              = (λ price, detail_line sale price (price * quantity sale)%float)
                  <$> prices !! product sale) as ->
        by (unfold detail_of; by destruct (prices !! product sale)).
      destruct (prices !! product sale) as [price|] eqn:Hl;
        injection Hrow as Ho Hst; subst st1; simpl in *;
        rewrite Htot, Hvalid, Hdet.
      * unfold unit_price at 2. rewrite Hl. simpl.
        split; [done|]. split; [lia|]. by rewrite <- (assoc_L (++)).
      * split; [done|]. split; [lia|done].
    + injection Hrow as Ho Hst. by subst st1.
Qed.

(** The loop ends normally when every quantity is in range. *)
Lemma compute_rows_returns prices rows idx st :
  Forall quantity_in_range rows →
  ∃ o st', for_each (compute_total_row prices) idx rows st = (o, Ret st').
Proof.
  intros Hall. revert idx st. induction Hall as [|raw rows Hraw _ IH]; intros idx st.
  - by eexists _, _.
  - destruct (parse_sale_line_returns raw idx Hraw) as (o & r & Hp).
    simpl. pose proof (compute_total_row_spec prices idx raw st o r Hp) as Hrow.
    destruct r as [sale|]; [destruct (prices !! product sale)|];
      match type of Hrow with _ = (?o1, Ret ?st1) =>
        destruct (IH (S idx) st1) as (o2 & st2 & Hrest);
        exists (o1 ++ o2), st2; by apply (bind_eq _ _ o1 st1)
      end.
Qed.

(** Every validated row whose product is unknown leaves its diagnostic. *)
Lemma compute_rows_unknown prices rows idx st o st' k raw sale :
  for_each (compute_total_row prices) idx rows st = (o, Ret st') →
  rows !! k = Some raw → sale_of raw = Some sale →
  prices !! product sale = None →
  Print (unknown_product (idx + k) (product sale)) ∈ o.
Proof.
  revert idx st o k. induction rows as [|raw0 rows IH]; intros idx st o k; [done|].
  simpl. intros Hloop Hk Hsale Hl.
  apply bind_ret in Hloop as (o1 & st1 & o2 & Hrow & Hrest & ->).
  apply elem_of_app. destruct k as [|k]; simpl in Hk.
  - injection Hk as ->. left. rewrite Nat.add_0_r.
    destruct (parse_sale_line raw idx) as [op [r|e]] eqn:Hp;
      [|by unfold compute_total_row in Hrow; rewrite Hp in Hrow].
    rewrite (compute_total_row_spec _ _ _ _ _ _ Hp) in Hrow.
    rewrite (sale_of_parse _ _ _ _ Hp) in Hsale. subst r. rewrite Hl in Hrow.
    injection Hrow as <- _. apply elem_of_app. right. by apply list_elem_of_singleton.
  - right. replace (idx + S k) with (S idx + k) by lia. by eapply IH.
Qed.

(** *** The loop of [build_price_map] *)

(** One step of the loop that ends normally: a valid row adds its entry
    and prints nothing, another row prints one diagnostic and adds nothing. *)
Lemma build_price_map_row_spec idx item prices o prices' :
  build_price_map_row idx item prices = (o, Ret prices') →
  match catalogue_entry item with
  | Some (t, p) => o = [] ∧ prices' = <[t:=p]> prices
  | None => length o = 1 ∧ prices' = prices
  end.
Proof.
  unfold build_price_map_row, catalogue_entry.
  destruct item as [| | | | | |d]; try by intros [= <- <-].
  destruct (dict_get d "title" JNull) as [| | | |t| |]; try by intros [= <- <-].
  destruct (str_bool (strip t)); simpl; [|by intros [= <- <-]].
  destruct (float_spec (dict_get d "price" JNull)) as (r & -> & Hres).
  destruct Hres; simpl; by intros [= <- <-].
Qed.

(** A valid row is stored silently, whatever the map holds. *)
Lemma build_price_map_row_entry idx item prices t p :
  catalogue_entry item = Some (t, p) →
  build_price_map_row idx item prices = ([], Ret (<[t:=p]> prices)).
Proof.
  unfold build_price_map_row, catalogue_entry.
  destruct item as [| | | | | |d]; try done.
  destruct (dict_get d "title" JNull) as [| | | |s| |]; try done.
  destruct (str_bool (strip s)); simpl; [|done].
  destruct (float_spec (dict_get d "price" JNull)) as (r & -> & Hres).
  destruct Hres; simpl; try done. by intros [= <- <-].
Qed.

Lemma build_rows_spec items idx prices o prices' :
  for_each build_price_map_row idx items prices = (o, Ret prices') →
  prices' = foldl store prices (omap catalogue_entry items) ∧
  length o = length (filter (λ item, catalogue_entry item = None) items).
Proof.
  revert idx prices o. induction items as [|item items IH]; intros idx prices o.
  - by intros [= <- <-].
  - simpl. intros Hloop.
    apply bind_ret in Hloop as (o1 & m1 & o2 & Hrow & Hrest & ->).
    apply IH in Hrest as (-> & Hlen). apply build_price_map_row_spec in Hrow.
    rewrite filter_cons, length_app.
    destruct (catalogue_entry item) as [[t p]|]; destruct Hrow as (Ho1 & ->).
    + subst o1. case_decide; [done|]. done.
    + case_decide; [|done]. simpl. by rewrite Ho1, Hlen.
Qed.

Lemma lookup_foldl_store_notin entries prices t :
  t ∉ entries.*1 → foldl store prices entries !! t = prices !! t.
Proof.
  revert prices. induction entries as [|[t' p'] entries IH]; intros prices Hnotin; [done|].
  simpl in *. apply not_elem_of_cons in Hnotin as [Hne Hnotin].
  rewrite IH by done. unfold store. simpl. by apply lookup_insert_ne.
Qed.

(** The last entry for a title is the one the map keeps. *)
Lemma lookup_foldl_store_last before after prices t p :
  t ∉ after.*1 →
  foldl store prices (before ++ (t, p) :: after) !! t = Some p.
Proof.
  intros Hnotin. rewrite foldl_app. simpl.
  rewrite lookup_foldl_store_notin by done. apply lookup_insert_eq.
Qed.

(** [compute_total] returns, with the sum as its total, on every sales
    array whose quantities are in range ([print] taken to succeed). *)
Lemma compute_total_returns (prices : gmap string float) (rows : list json) :
  Forall quantity_in_range rows →
  ∃ o details,
    compute_total prices (JList rows) = (o, Ret (total_cost prices rows, details)).
Proof.
  intros Hall.
  destruct (compute_rows_returns prices rows 1
              {| total := 0%float; detail_lines := []; valid_rows := 0 |} Hall)
    as (o & st & Hloop).
  pose proof (compute_rows_spec _ _ _ _ _ _ Hloop) as (Htot & _ & _).
  simpl in Htot.
  exists (o ++ []), (("VALID_SALES_ROWS: " +:+ pretty (valid_rows st)) :: detail_lines st).
  unfold compute_total. eapply bind_eq; [exact Hloop|].
  unfold total_cost, fsum. by rewrite <- Htot.
Qed.

(** [build_price_map] returns on every catalogue array whose prices are in
    range ([print] taken to succeed). *)
Lemma build_price_map_returns (items : list json) :
  Forall price_in_range items →
  ∃ o prices, build_price_map (JList items) = (o, Ret prices).
Proof.
  unfold build_price_map. generalize 1 (∅ : gmap string float).
  intros idx prices Hall. revert idx prices.
  induction Hall as [|item items Hitem _ IH]; intros idx prices.
  - by eexists _, _.
  - assert (∃ o1 prices1, build_price_map_row idx item prices = (o1, Ret prices1))
      as (o1 & prices1 & Hrow).
    { unfold build_price_map_row.
      destruct item as [| | | | | |d]; try by eexists _, _.
      destruct (dict_get d "title" JNull) as [| | | |t| |]; try by eexists _, _.
      destruct (str_bool (strip t)); simpl; [|by eexists _, _].
      destruct (float_spec (dict_get d "price" JNull)) as (r & -> & Hres).
      destruct Hres as [x|msg|msg|z msg Hz Hov]; simpl; try by eexists _, _.
      destruct (Hitem d eq_refl z Hz) as [x Hx]. congruence. }
    destruct (IH (S idx) prices1) as (o2 & prices2 & Hrest).
    exists (o1 ++ o2), prices2. simpl. by apply (bind_eq _ _ o1 prices1).
Qed.

End Facts.
End Facts.

(** ** Facts about the report and the whole run *)
Module RunFacts.
Import Py ComputeSales Spec MFacts.

Lemma append_assoc (s1 s2 s3 : string) : (s1 +:+ s2) +:+ s3 = s1 +:+ s2 +:+ s3.
Proof.
  induction s1 as [|a s1 IH]; [done|].
  change (String a ((s1 +:+ s2) +:+ s3) = String a (s1 +:+ s2 +:+ s3)).
  by rewrite IH.
Qed.

Lemma append_nil_r (s : string) : s +:+ "" = s.
Proof.
  induction s as [|a s IH]; [done|].
  change (String a (s +:+ "") = String a s). by rewrite IH.
Qed.

Lemma file_text_app l1 l2 : file_text (l1 ++ l2) = file_text l1 +:+ file_text l2.
Proof.
  induction l1 as [|l l1 IH]; [done|]. simpl. by rewrite IH, append_assoc.
Qed.

(** Writing lines to an open file appends them, each with its newline. *)
Lemma file_after_writes path content lines :
  file_after path (Some content)
    ((λ line, FileWrite path (line +:+ newline)) <$> lines)
  = Some (content +:+ file_text lines).
Proof.
  revert content. induction lines as [|l lines IH]; intros content; simpl.
  - by rewrite append_nil_r.
  - unfold file_after in *. simpl. rewrite String.eqb_refl. simpl.
    by rewrite IH, !append_assoc.
Qed.

(** What [write_results] does: it prints the lines of the report, then
    opens the results file for writing and writes the same lines. *)
Lemma write_results_effects total details elapsed :
  write_results total details elapsed =
    ((Print <$> report_lines total details elapsed)
     ++ FileOpenW RESULTS_FILENAME
        :: ((λ line, FileWrite RESULTS_FILENAME (line +:+ newline))
              <$> report_lines total details elapsed),
     Ret ()).
Proof.
  unfold write_results.
  rewrite (for_each_effects Print),
    (for_each_effects (λ line, FileWrite RESULTS_FILENAME (line +:+ newline))).
  done.
Qed.

(** What a call of [write_results] that returns has printed and left in
    the results file. *)
Lemma write_results_Ret total details elapsed o :
  write_results total details elapsed = (o, Ret ()) →
  printed o = report_lines total details elapsed ∧
  ∀ prior,
    file_after RESULTS_FILENAME prior o
    = Some (file_text (report_lines total details elapsed)).
Proof.
  rewrite write_results_effects. intros Hrun.
  set (lines := report_lines total details elapsed) in *.
  assert (o = (Print <$> lines) ++ FileOpenW RESULTS_FILENAME
                :: ((λ line, FileWrite RESULTS_FILENAME (line +:+ newline)) <$> lines))
    as -> by congruence.
  split.
  - rewrite printed_app, printed_Print.
    assert (∀ l : list string,
      printed (FileOpenW RESULTS_FILENAME
               :: ((λ line, FileWrite RESULTS_FILENAME (line +:+ newline)) <$> l)) = [])
      as -> by (intros l; induction l; done).
    by rewrite app_nil_r.
  - intros prior. rewrite file_after_app, file_after_Print.
    change (file_after RESULTS_FILENAME (Some "")
              ((λ line, FileWrite RESULTS_FILENAME (line +:+ newline)) <$> lines)
            = Some (file_text lines)).
    by rewrite file_after_writes.
Qed.

Lemma report_lines_head total details elapsed :
  report_lines total details elapsed
  = report_head total details ++ [elapsed_line elapsed].
Proof. unfold report_lines, report_head. simpl. by rewrite <- !(assoc_L (++)). Qed.

Section RunFacts.
Context `{Builtins}.

Lemma main_before_report argv fs t_start t_end :
  main argv fs t_start t_end
  = before_report argv fs ≫= λ result,
      write_results result.1 result.2 (t_end - t_start)%float.
Proof.
  unfold main, before_report. destruct (negb (length argv =? 3)%nat); [done|].
  rewrite !bind_assoc. apply bind_ext. intros catalogue_json.
  rewrite !bind_assoc. apply bind_ext. intros sales_json.
  rewrite !bind_assoc. done.
Qed.

(** A run that reaches the report. *)
Lemma run_report argv fs prior t_start t_end o total details :
  before_report argv fs = (o, Ret (total, details)) →
  run argv fs prior t_start t_end =
    {| stdout :=
         printed o ++ report_head total details
         ++ [elapsed_line (t_end - t_start)];
       stderr := [];
       exit_code := 0;
       results_file :=
         Some (file_text (report_head total details
                          ++ [elapsed_line (t_end - t_start)])) |}.
Proof.
  intros Hbefore. unfold run. rewrite main_before_report, Hbefore.
  unfold mbind, M_bind. cbn [fst snd]. rewrite write_results_effects.
  cbv beta iota zeta. rewrite report_lines_head.
  set (lines := report_head total details ++ [elapsed_line (t_end - t_start)]).
  f_equal.
  - rewrite !printed_app, printed_Print.
    assert (∀ l : list string,
      printed (FileOpenW RESULTS_FILENAME
               :: ((λ line, FileWrite RESULTS_FILENAME (line +:+ newline)) <$> l)) = [])
      as -> by (intros l; induction l; done).
    by rewrite app_nil_r.
  - rewrite !file_after_app, file_after_Print.
    change (file_after RESULTS_FILENAME (Some "")
              ((λ line, FileWrite RESULTS_FILENAME (line +:+ newline)) <$> lines)
            = Some (file_text lines)).
    by rewrite file_after_writes.
Qed.

(** A run that stops before the report. *)
Lemma run_stops argv fs prior t_start t_end o e :
  before_report argv fs = (o, Raise e) →
  run argv fs prior t_start t_end =
    {| stdout := printed o;
       stderr := match e with Exc cls msg => uncaught_report cls msg | _ => [] end;
       exit_code := match e with SystemExit code => code | Exc _ _ => 1 end;
       results_file := file_after RESULTS_FILENAME prior o |}.
Proof. intros Hbefore. unfold run. by rewrite main_before_report, Hbefore. Qed.

End RunFacts.
End RunFacts.

(** ** The claims *)
Module Claims.
Import Py ComputeSales Spec MFacts Facts RunFacts.

Section Claims.
Context `{Builtins}.

(** C1.  When [compute_total] returns on a sales array, the total it returns
    is the sum, in input order from 0.0, of unit_price x quantity over
    exactly the rows that [parse_sale_line] turns into a Sale Line and whose
    (trimmed) product is a key of the Price Map; the other rows contribute
    nothing.  This holds for every Price Map, hence for the one built from
    any catalogue array.  By [compute_total_returns], [compute_total] does
    return on every sales array whose quantities are in range, as long as
    its diagnostics can be printed. *)
Theorem compute_total_is_sum (prices : gmap string float) (rows : list json)
    (o : list effect) (total : float) (details : list string) :
  compute_total prices (JList rows) = (o, Ret (total, details)) →
  total = total_cost prices rows.
Proof.
  unfold compute_total. intros Hrun.
  apply bind_ret in Hrun as (o1 & st & o2 & Hloop & Hret & _).
  apply compute_rows_spec in Hloop as (Htot & _ & _).
  injection Hret as _ <- _. exact Htot.
Qed.

(** C2.  The first detail line returned by [compute_total] is
    [VALID_SALES_ROWS: n] with [n] the number of rows that passed row-level
    validation: the rows with a priced product and those without one are
    both counted. *)
Theorem valid_sales_rows_line (prices : gmap string float) (rows : list json)
    (o : list effect) (total : float) (details : list string) :
  compute_total prices (JList rows) = (o, Ret (total, details)) →
  head details = Some ("VALID_SALES_ROWS: " +:+ pretty (length (valid_sales rows))) ∧
  length (valid_sales rows)
  = length (filter (priced prices) (valid_sales rows))
    + length (filter (λ sale, ¬ priced prices sale) (valid_sales rows)).
Proof.
  unfold compute_total. intros Hrun.
  apply bind_ret in Hrun as (o1 & st & o2 & Hloop & Hret & _).
  apply compute_rows_spec in Hloop as (_ & Hvalid & _).
  injection Hret as _ _ <-. simpl in *. rewrite Hvalid. split; [done|].
  clear. induction (valid_sales rows) as [|sale sales IH]; [done|].
  rewrite !filter_cons. repeat case_decide; try tauto; simpl; lia.
Qed.

(** C3.  A run in which the catalogue file loads but holds a JSON value that
    is not an array ends with exit code 1, leaves [SalesResults.txt] as it
    was, and reports one error: the [ValueError] of [build_price_map], which
    [main] does not catch, reported by the interpreter on standard error;
    or, when the sales file fails to load, the error of that load, which
    comes first. *)
Theorem catalogue_not_array (prog cpath spath : string) (fs : files)
    (prior : option string) (t_start t_end : float) (catalogue_json : json) :
  fs cpath = inr catalogue_json →
  (∀ items, catalogue_json ≠ JList items) →
  let r := run [prog; cpath; spath] fs prior t_start t_end in
  exit_code r = 1%Z ∧ results_file r = prior ∧
  match fs spath with
  | inr _ =>
      stdout r = [] ∧
      stderr r = ["ValueError: Price catalogue JSON must be a list of product objects."]
  | inl (cls, msg) =>
      if existsb (issubclass cls) [OSError; JSONDecodeError; ValueError] then
        stdout r = ["Error reading sales file '" +:+ spath +:+ "': " +:+ msg] ∧
        stderr r = []
      else stdout r = [] ∧ stderr r = [class_name cls +:+ ": " +:+ msg]
  end.
Proof.
  intros Hc Hnot. unfold run, main. simpl. unfold load_json_file. rewrite Hc.
  destruct (fs spath) as [[cls msg]|sales_json].
  - destruct cls; simpl; done.
  - destruct catalogue_json; simpl; try done. by edestruct Hnot.
Qed.

(** C4.  A row that reaches the [Quantity] conversion (an object with a
    non-blank string [Product]) and whose quantity converts to [q <= 0] is
    accepted: the sign of [q] is never inspected.  If its product is priced,
    the row adds [unit_price * q] to the running total: the total for
    [rows] followed by that row is the total for [rows] plus
    [unit_price * q]. *)
Theorem negative_quantity_accepted (d : list (string * json)) (p : string) (q : float) :
  dict_get d "Product" JNull = JStr p →
  str_bool (strip p) = true →
  float_ (dict_get d "Quantity" JNull) = ([], Ret q) →
  (q <=? 0)%float = true →
  (∀ row_num, parse_sale_line (JDict d) row_num = ([], Ret (Some (sale_line d p q)))) ∧
  ∀ (prices : gmap string float) price rows o total details,
    prices !! strip p = Some price →
    compute_total prices (JList rows) = (o, Ret (total, details)) →
    ∃ details',
      compute_total prices (JList (rows ++ [JDict d]))
      = (o, Ret ((total + price * q)%float, details')).
Proof.
  intros Hp Hs Hq _.
  assert (∀ row_num,
    parse_sale_line (JDict d) row_num = ([], Ret (Some (sale_line d p q)))) as Hparse
    by (intros; by apply parse_sale_line_accepts).
  split; [done|].
  intros prices price rows o total details Hprice Hrun. unfold compute_total in *.
  apply bind_ret in Hrun as (o1 & st & o2 & Hloop & Hret & ->).
  injection Hret as <- <- <-.
  rewrite for_each_app. rewrite Hloop. simpl.
  rewrite (compute_total_row_spec _ _ _ _ _ _ (Hparse _)). simpl. rewrite Hprice.
  eexists. unfold mbind, M_bind, mret, M_ret. simpl. by rewrite !app_nil_r.
Qed.

(** C5.  When [write_results] returns, it has printed the lines
    [SALES SUMMARY], [=============], the detail lines in order, an empty
    line, [TOTAL_COST:] with the total to two decimals and
    [ELAPSED_SECONDS:] with the elapsed time to six decimals; then it has
    opened [SalesResults.txt] for writing, which discards whatever the file
    held, and written the same lines, each followed by a line feed: the
    file holds these lines and nothing else.  A call in which printing,
    opening or writing fails does not return, and nothing is said of it. *)
Theorem write_results_report (total : float) (details : list string)
    (elapsed_seconds : float) (o : list effect) :
  write_results total details elapsed_seconds = (o, Ret ()) →
  let lines :=
    ["SALES SUMMARY"; "============="] ++ details
    ++ [""; "TOTAL_COST: " +:+ format_f 2 total;
        "ELAPSED_SECONDS: " +:+ format_f 6 elapsed_seconds] in
  o = (Print <$> lines) ++ FileOpenW "SalesResults.txt"
        :: ((λ line, FileWrite "SalesResults.txt" (line +:+ String "010"%char ""))
              <$> lines) ∧
  printed o = lines ∧
  ∀ prior,
    file_after "SalesResults.txt" prior o
    = Some (foldr (λ line rest, line +:+ String "010"%char rest) "" lines).
Proof.
  intros Hrun lines. rewrite write_results_effects in Hrun.
  change (report_lines total details elapsed_seconds) with lines in Hrun.
  assert (o = (Print <$> lines) ++ FileOpenW RESULTS_FILENAME
                :: ((λ line, FileWrite RESULTS_FILENAME (line +:+ newline)) <$> lines))
    as -> by congruence.
  split; [reflexivity|]. split.
  - rewrite printed_app, printed_Print.
    assert (∀ l : list string,
      printed (FileOpenW RESULTS_FILENAME
               :: ((λ line, FileWrite RESULTS_FILENAME (line +:+ newline)) <$> l)) = [])
      as -> by (intros l; induction l; done).
    by rewrite app_nil_r.
  - intros prior. rewrite file_after_app, file_after_Print.
    change (file_after RESULTS_FILENAME (Some "")
              ((λ line, FileWrite RESULTS_FILENAME (line +:+ newline)) <$> lines)
            = Some (file_text lines)).
    by rewrite file_after_writes.
Qed.

(** C6.  In the map that [build_price_map] returns for a catalogue array, a
    title is bound to the price of the last valid row that has it (as its
    trimmed title): later rows overwrite earlier ones.  A valid row is
    stored without any diagnostic, whether or not the map already holds its
    title: the diagnostics are one per invalid row.  By
    [build_price_map_returns], [build_price_map] does return on every
    catalogue array whose prices are in range, as long as its diagnostics
    can be printed. *)
Theorem last_title_wins (before after : list json) (item : json) (t : string)
    (p : float) (o : list effect) (prices : gmap string float) :
  catalogue_entry item = Some (t, p) →
  (∀ item' p', item' ∈ after → catalogue_entry item' ≠ Some (t, p')) →
  build_price_map (JList (before ++ item :: after)) = (o, Ret prices) →
  prices !! t = Some p ∧
  (∀ idx (m : gmap string float),
     build_price_map_row idx item m = ([], Ret (<[t:=p]> m))) ∧
  length o
  = length (filter (λ item, catalogue_entry item = None) (before ++ item :: after)).
Proof.
  intros Hitem Hafter Hrun. unfold build_price_map in Hrun.
  apply build_rows_spec in Hrun as (-> & Hlen).
  split; [|split; [|done]].
  - rewrite omap_app. simpl. rewrite Hitem. apply lookup_foldl_store_last.
    intros Hin. apply list_elem_of_fmap in Hin as ([t' p'] & Ht & Hin). simpl in Ht. subst t'.
    apply list_elem_of_omap in Hin as (item' & Hin & Hentry).
    by eapply Hafter.
  - intros idx m. by apply build_price_map_row_entry.
Qed.

(** C7.  With an empty catalogue array the Price Map is empty; then, for any
    sales array on which [compute_total] returns, the total is 0.0 (printed
    as 0.00), the only detail line is the [VALID_SALES_ROWS] line, and every
    row that passes row-level validation leaves its unknown-product
    diagnostic. *)
Theorem empty_catalogue (rows : list json) (o : list effect) (total : float)
    (details : list string) :
  (build_price_map (JList []) ≫= λ prices, compute_total prices (JList rows))
  = (o, Ret (total, details)) →
  total = 0%float ∧ format_f 2 total = "0.00" ∧
  details = ["VALID_SALES_ROWS: " +:+ pretty (length (valid_sales rows))] ∧
  ∀ k raw sale,
    rows !! k = Some raw → sale_of raw = Some sale →
    Print (unknown_product (S k) (product sale)) ∈ o.
Proof.
  intros Hrun. apply bind_ret in Hrun as (o0 & prices & o1 & Hbuild & Hrun & ->).
  injection Hbuild as <- <-. simpl. unfold compute_total in Hrun.
  apply bind_ret in Hrun as (o1' & st & o2 & Hloop & Hret & ->).
  injection Hret as <- <- <-.
  pose proof (compute_rows_spec _ _ _ _ _ _ Hloop) as (Htot & Hvalid & Hdet).
  simpl in *.
  rewrite filter_priced_empty in Htot. rewrite omap_detail_of_empty in Hdet.
  simpl in Htot.
  rewrite Htot, Hvalid, Hdet. repeat split.
  intros k raw sale Hk Hsale. rewrite app_nil_r.
  change (S k) with (1 + k). eapply compute_rows_unknown; eauto using lookup_empty.
Qed.

(** C8.  Two runs on the same arguments and files, from the same content of
    [SalesResults.txt], whatever the clock reads in each: either they end
    alike in every respect (the runs that stop before the report), or both
    print the same diagnostics and the same report and write the same file
    up to the [ELAPSED_SECONDS] line, which comes last.  The functions
    [build_price_map] and [compute_total] take no input but their
    arguments. *)
Theorem rerun_identical (argv : list string) (fs : files) (prior : option string)
    (t0 t1 t0' t1' : float) :
  let r := run argv fs prior t0 t1 in
  let r' := run argv fs prior t0' t1' in
  r = r' ∨
  ∃ diagnostics total details,
    stdout r = diagnostics ++ report_head total details ++ [elapsed_line (t1 - t0)] ∧
    stdout r' = diagnostics ++ report_head total details ++ [elapsed_line (t1' - t0')] ∧
    results_file r
    = Some (file_text (report_head total details ++ [elapsed_line (t1 - t0)])) ∧
    results_file r'
    = Some (file_text (report_head total details ++ [elapsed_line (t1' - t0')])) ∧
    stderr r = stderr r' ∧ exit_code r = exit_code r'.
Proof.
  intros r r'. subst r r'.
  destruct (before_report argv fs) as [o [[total details]|e]] eqn:Hbefore.
  - right. exists (printed o), total, details.
    by rewrite !(run_report _ _ _ _ _ _ _ _ Hbefore).
  - left. by rewrite !(run_stops _ _ _ _ _ _ _ Hbefore).
Qed.

(** C9.  [parse_sale_line] is not total: on a row whose [Quantity] is an
    integer too large for a float it raises, since [float()] raises
    [OverflowError], which the handler for [TypeError] and [ValueError] does
    not catch.  By [parse_sale_line_Raise] this is the only exception that
    leaves it when its diagnostic can be printed. *)
Theorem parse_sale_line_overflow (row_num : nat) :
  parse_sale_line (JDict [("Product", JStr "A"); ("Quantity", JInt (10 ^ 400))]) row_num
  = ([], Raise (Exc OverflowError "int too large to convert to float")).
Proof.
  assert (float_of_int (10 ^ 400) = None) as Hov by (vm_compute; reflexivity).
  unfold parse_sale_line, coerce_quantity, try_except, float_. cbn.
  rewrite Hov. reflexivity.
Qed.

(** C10.  In the Sale Line of a row, [sale_id] and [sale_date] are the
    string of the value under [SALE_ID] and [SALE_Date] when the key is
    present, which is [None] for a JSON null, and [N/A] when the key is
    absent. *)
Theorem null_sale_id (d : list (string * json)) (row_num : nat) (o : list effect)
    (sale : SaleLine) :
  parse_sale_line (JDict d) row_num = (o, Ret (Some sale)) →
  (dict_lookup d "SALE_ID" = Some JNull → sale_id sale = "None") ∧
  (dict_lookup d "SALE_Date" = Some JNull → sale_date sale = "None") ∧
  (∀ v, dict_lookup d "SALE_ID" = Some v → sale_id sale = _safe_str v) ∧
  (∀ v, dict_lookup d "SALE_Date" = Some v → sale_date sale = _safe_str v) ∧
  (dict_lookup d "SALE_ID" = None → sale_id sale = "N/A") ∧
  (dict_lookup d "SALE_Date" = None → sale_date sale = "N/A").
Proof.
  intros Hparse.
  apply parse_sale_line_Some in Hparse as (d' & p & q & [= <-] & _ & _ & _ & _ & ->).
  unfold sale_line, dict_get. simpl.
  repeat split; intros; by match goal with Hl : dict_lookup _ _ = _ |- _ => rewrite Hl end.
Qed.

End Claims.
End Claims.

(** ** The theorems at concrete inputs *)
Module Witnesses.
Import Py ComputeSales Spec Facts Reference Examples MoreExamples Claims.

Lemma compute_total_is_sum_witness :
  compute_total prices (JList sales) = (sales_effects, Ret (2.5%float, sales_details)) ∧
  2.5%float = total_cost prices sales.
Proof.
  assert (compute_total prices (JList sales)
          = (sales_effects, Ret (2.5%float, sales_details))) as Hrun
    by (vm_compute; reflexivity).
  split; [exact Hrun|]. exact (compute_total_is_sum _ _ _ _ _ Hrun).
Defined.

Lemma valid_sales_rows_line_witness :
  compute_total prices (JList sales) = (sales_effects, Ret (2.5%float, sales_details)) ∧
  head sales_details
  = Some ("VALID_SALES_ROWS: " +:+ pretty (length (valid_sales sales))) ∧
  length (valid_sales sales)
  = length (filter (priced prices) (valid_sales sales))
    + length (filter (λ sale, ¬ priced prices sale) (valid_sales sales)).
Proof.
  assert (compute_total prices (JList sales)
          = (sales_effects, Ret (2.5%float, sales_details))) as Hrun
    by (vm_compute; reflexivity).
  split; [exact Hrun|]. exact (valid_sales_rows_line _ _ _ _ _ Hrun).
Defined.

Lemma catalogue_not_array_witness :
  fs "c.json" = inr (JDict []) ∧
  (∀ items, JDict [] ≠ JList items) ∧
  let r := run ["computeSales.py"; "c.json"; "s.json"] fs (Some "old") 1 2 in
  exit_code r = 1%Z ∧ results_file r = Some "old" ∧ stdout r = [] ∧
  stderr r = ["ValueError: Price catalogue JSON must be a list of product objects."].
Proof.
  assert (∀ items, JDict [] ≠ JList items) as Hnot by (intros items; discriminate).
  split; [reflexivity|]. split; [exact Hnot|].
  exact (catalogue_not_array "computeSales.py" "c.json" "s.json" fs (Some "old")
           1 2 (JDict []) eq_refl Hnot).
Defined.

Lemma negative_quantity_accepted_witness :
  dict_get returned_row "Product" JNull = JStr " Widget" ∧
  str_bool (strip " Widget") = true ∧
  float_ (dict_get returned_row "Quantity" JNull) = ([], Ret (-2)%float) ∧
  (-2 <=? 0)%float = true ∧
  parse_sale_line (JDict returned_row) 4
  = ([], Ret (Some (sale_line returned_row " Widget" (-2)))) ∧
  ∃ details',
    compute_total prices (JList (sales_before ++ [JDict returned_row]))
    = (sales_before_effects, Ret ((7.5 + 2.5 * -2)%float, details')).
Proof.
  assert (compute_total prices (JList sales_before)
          = (sales_before_effects, Ret (7.5%float, sales_before_details))) as Hrun
    by (vm_compute; reflexivity).
  pose proof (negative_quantity_accepted returned_row " Widget" (-2)
                eq_refl eq_refl eq_refl eq_refl) as [Hparse Htotal].
  do 4 (split; [reflexivity|]). split; [exact (Hparse 4)|].
  exact (Htotal prices 2.5%float sales_before _ _ _ eq_refl Hrun).
Defined.

Lemma last_title_wins_witness :
  catalogue_entry widget_again = Some ("Widget", 2.5%float) ∧
  build_price_map (JList (catalogue_before ++ widget_again :: catalogue_after))
  = (catalogue_effects, Ret prices) ∧
  prices !! "Widget" = Some 2.5%float ∧
  length catalogue_effects = 3.
Proof.
  assert (build_price_map (JList (catalogue_before ++ widget_again :: catalogue_after))
          = (catalogue_effects, Ret prices)) as Hrun by (vm_compute; reflexivity).
  assert (∀ item' p',
    item' ∈ catalogue_after → catalogue_entry item' ≠ Some ("Widget", p')) as Hafter.
  { intros item' p' Hin. unfold catalogue_after in Hin.
    apply elem_of_cons in Hin as [->|Hin]; [discriminate|].
    apply elem_of_cons in Hin as [->|Hin]; [discriminate|].
    by inversion Hin. }
  pose proof (last_title_wins catalogue_before catalogue_after widget_again
                "Widget" 2.5%float catalogue_effects prices eq_refl Hafter Hrun)
    as (Hlookup & _ & Hlen).
  split; [reflexivity|]. split; [exact Hrun|]. split; [exact Hlookup|]. reflexivity.
Defined.

Lemma empty_catalogue_witness :
  (build_price_map (JList []) ≫= λ prices, compute_total prices (JList sales))
  = (unpriced_effects, Ret (0%float, ["VALID_SALES_ROWS: 3"])) ∧
  format_f 2 0 = "0.00" ∧
  Print (unknown_product 4 "Widget") ∈ unpriced_effects.
Proof.
  assert ((build_price_map (JList []) ≫= λ prices, compute_total prices (JList sales))
          = (unpriced_effects, Ret (0%float, ["VALID_SALES_ROWS: 3"]))) as Hrun
    by (vm_compute; reflexivity).
  pose proof (empty_catalogue sales _ _ _ Hrun) as (_ & Hfmt & _ & Hdiag).
  split; [exact Hrun|]. split; [exact Hfmt|].
  exact (Hdiag 3 (JDict returned_row) (sale_line returned_row " Widget" (-2))
           eq_refl eq_refl).
Defined.

Lemma null_sale_id_witness :
  parse_sale_line (JDict null_id_row) 3
  = ([], Ret (Some (sale_line null_id_row "Nope" 2))) ∧
  dict_lookup null_id_row "SALE_ID" = Some JNull ∧
  dict_lookup null_id_row "SALE_Date" = None ∧
  sale_id (sale_line null_id_row "Nope" 2) = "None" ∧
  sale_date (sale_line null_id_row "Nope" 2) = "N/A".
Proof.
  assert (parse_sale_line (JDict null_id_row) 3
          = ([], Ret (Some (sale_line null_id_row "Nope" 2)))) as Hrun
    by (vm_compute; reflexivity).
  pose proof (null_sale_id null_id_row 3 _ _ Hrun) as (Hid & _ & _ & _ & _ & Hdate).
  split; [exact Hrun|]. split; [reflexivity|]. split; [reflexivity|].
  split; [exact (Hid eq_refl)|exact (Hdate eq_refl)].
Defined.

Lemma write_results_report_witness :
  write_results 7.125 first_sale_details 0.5 = (report_effects, Ret ()) ∧
  printed report_effects = report_printed ∧
  file_after "SalesResults.txt" (Some "an earlier report") report_effects
  = Some report_text.
Proof.
  assert (write_results 7.125 first_sale_details 0.5 = (report_effects, Ret ()))
    as Hrun by (vm_compute; reflexivity).
  pose proof (write_results_report 7.125 first_sale_details 0.5 report_effects Hrun)
    as (_ & Hprinted & Hfile).
  split; [exact Hrun|]. split; [exact Hprinted|].
  exact (Hfile (Some "an earlier report")).
Defined.

(** The sample of the specification: a Widget at 9.99, sold three times. *)
Example widget_sample :
  ∃ prices total,
    build_price_map (JList [JDict [("title", JStr "Widget"); ("price", JStr "9.99")]])
    = ([], Ret prices) ∧
    compute_total prices
      (JList [JDict [("Product", JStr "Widget"); ("Quantity", JInt 3);
                     ("SALE_ID", JStr "S1"); ("SALE_Date", JStr "2024-01-01")]])
    = ([], Ret (total,
         ["VALID_SALES_ROWS: 1";
          "- SALE_ID=S1 | DATE=2024-01-01 | PRODUCT='Widget' | QTY=3 | UNIT=9.99 | LINE_TOTAL=29.97"])) ∧
    format_f 2 total = "29.97".
Proof. eexists _, _. repeat split; vm_compute; reflexivity. Qed.

End Witnesses.

(** ** Further facts: [str.strip], effects, exceptions *)
Module MoreFacts.
Import Py ComputeSales Spec MoreSpec MFacts Facts RunFacts.

(** *** [str.strip] *)

Lemma lstrip_head a r s : lstrip s = String a r → isspace a = false.
Proof.
  induction s as [|b s IH]; [done|]. simpl.
  destruct (isspace b) eqn:Hb; [done|]. by intros [= <- <-].
Qed.

Lemma rstrip_cons a s : isspace a = false → rstrip (String a s) = String a (rstrip s).
Proof. intros Ha. simpl. rewrite Ha. by destruct (rstrip s). Qed.

Lemma rstrip_idemp s : rstrip (rstrip s) = rstrip s.
Proof.
  induction s as [|a s IH]; [done|]. simpl.
  destruct (rstrip s) as [|b r] eqn:Hr.
  - destruct (isspace a) eqn:Ha; [done|]. simpl. by rewrite Ha.
  - change (rstrip (String a (String b r))) with
      (match rstrip (String b r) with
       | EmptyString => if isspace a then EmptyString else String a EmptyString
       | r' => String a r'
       end).
    by rewrite IH.
Qed.

(** A stripped string is left alone by [strip]: it has no white space at
    either end. *)
Lemma strip_idemp s : strip (strip s) = strip s.
Proof.
  unfold strip. destruct (lstrip s) as [|a r] eqn:Hl; [done|].
  pose proof (lstrip_head _ _ _ Hl) as Ha.
  rewrite (rstrip_cons _ _ Ha). simpl. rewrite Ha.
  rewrite <- (rstrip_cons _ _ Ha). apply rstrip_idemp.
Qed.

Lemma str_bool_true s : str_bool s = true ↔ s ≠ "".
Proof. by destruct s. Qed.

(** *** Computations that only print *)

Lemma prints_nil : prints [].
Proof. done. Qed.

Lemma prints_cons s o : prints o → prints (Print s :: o).
Proof.
  unfold prints. intros Ho.
  change (Print s :: o = Print s :: (Print <$> printed o)). by f_equal.
Qed.

Lemma prints_app o1 o2 : prints o1 → prints o2 → prints (o1 ++ o2).
Proof.
  unfold prints. intros H1 H2. by rewrite printed_app, fmap_app, <- H1, <- H2.
Qed.

Lemma prints_file_after path prior o : prints o → file_after path prior o = prior.
Proof. intros ->. apply file_after_Print. Qed.

Lemma prints_bind {A B} (m : M A) (f : A → M B) :
  prints m.1 → (∀ a, prints (f a).1) → prints (m ≫= f).1.
Proof.
  intros Hm Hf. unfold mbind, M_bind. destruct m as [o [a|e]]; simpl in *; [|done].
  specialize (Hf a). destruct (f a) as [o' r]. by apply prints_app.
Qed.

Lemma prints_try_except {A} (m : M A) bases handler :
  prints m.1 → (∀ e, prints (handler e).1) → prints (try_except m bases handler).1.
Proof.
  intros Hm Hh. unfold try_except. destruct m as [o [a|e]]; simpl in *; [done|].
  destruct (catches bases e); [|done].
  specialize (Hh e). destruct (handler e) as [o' r]. by apply prints_app.
Qed.

Lemma prints_for_each {A St} (body : nat → A → St → M St) idx l st :
  (∀ i x s, prints (body i x s).1) → prints (for_each body idx l st).1.
Proof.
  intros Hbody. revert idx st. induction l as [|x l IH]; intros idx st; [done|].
  simpl. apply prints_bind; [apply Hbody|]. intros st'. apply IH.
Qed.

Lemma try_except_Ret {A} (m : M A) bases handler o a :
  try_except m bases handler = (o, Ret a) →
  m = (o, Ret a) ∨
  ∃ o1 e1 o2,
    m = (o1, Raise e1) ∧ catches bases e1 = true ∧
    handler e1 = (o2, Ret a) ∧ o = o1 ++ o2.
Proof.
  unfold try_except. destruct m as [o1 [a1|e1]]; [intros Heq; by left|].
  destruct (catches bases e1) eqn:Hc; [|done].
  destruct (handler e1) as [o2 r] eqn:Hh. intros [= <- ->]. right.
  by exists o1, e1, o2.
Qed.

Section MoreFacts.
Context `{Builtins}.

(** *** The three ways [parse_sale_line] ends *)
Lemma parse_sale_line_cases raw row_num :
  (∃ sale, parse_sale_line raw row_num = ([], Ret (Some sale))) ∨
  (∃ rest,
     parse_sale_line raw row_num
     = ([Print ("[Sales row " +:+ pretty row_num +:+ "] " +:+ rest)], Ret None)) ∨
  (∃ msg, parse_sale_line raw row_num = ([], Raise (Exc OverflowError msg))).
Proof.
  unfold parse_sale_line.
  destruct raw as [| | | | | |d]; try (right; left; by eexists).
  destruct (dict_get d "Product" JNull) as [| | | |p| |];
    try (right; left; by eexists).
  destruct (str_bool (strip p)); simpl; [|right; left; by eexists].
  destruct (coerce_quantity_spec row_num p (dict_get d "Quantity" JNull))
    as (r & Hr & Hres & ->).
  destruct Hres as [x|msg|msg|z msg Hz Hov]; simpl.
  - left. by eexists.
  - right. left. by eexists.
  - right. left. by eexists.
  - right. right. by eexists.
Qed.

Lemma parse_sale_line_prints raw row_num : prints (parse_sale_line raw row_num).1.
Proof.
  destruct (parse_sale_line_cases raw row_num)
    as [[sale ->]|[[rest ->]|[msg ->]]]; done.
Qed.

Lemma compute_total_row_prints prices i raw st :
  prints (compute_total_row prices i raw st).1.
Proof.
  unfold compute_total_row. apply prints_bind; [apply parse_sale_line_prints|].
  intros [sale|]; [|done]. by destruct (prices !! product sale).
Qed.

Lemma compute_total_prints prices sales_json : prints (compute_total prices sales_json).1.
Proof.
  unfold compute_total. destruct sales_json; try done.
  apply prints_bind; [|done]. apply prints_for_each. apply compute_total_row_prints.
Qed.

(** *** The three ways a step of [build_price_map] ends *)
Lemma build_price_map_row_cases idx item prices :
  (∃ t p,
     catalogue_entry item = Some (t, p) ∧
     build_price_map_row idx item prices = ([], Ret (<[t:=p]> prices))) ∨
  (∃ rest,
     catalogue_entry item = None ∧
     build_price_map_row idx item prices
     = ([Print ("[Catalogue row " +:+ pretty idx +:+ "] " +:+ rest)], Ret prices)) ∨
  (∃ d z msg,
     item = JDict d ∧ dict_get d "price" JNull = JInt z ∧ float_of_int z = None ∧
     build_price_map_row idx item prices = ([], Raise (Exc OverflowError msg))).
Proof.
  unfold build_price_map_row, catalogue_entry.
  destruct item as [| | | | | |d]; try (right; left; by eexists).
  destruct (dict_get d "title" JNull) as [| | | |t| |];
    try (right; left; by eexists).
  destruct (str_bool (strip t)); simpl; [|right; left; by eexists].
  destruct (float_spec (dict_get d "price" JNull)) as (r & -> & Hres).
  destruct Hres as [x|msg|msg|z msg Hz Hov]; simpl.
  - left. by eexists _, _.
  - right. left. by eexists.
  - right. left. by eexists.
  - right. right. by exists d, z, msg.
Qed.

Lemma build_price_map_row_prints idx item prices :
  prints (build_price_map_row idx item prices).1.
Proof.
  destruct (build_price_map_row_cases idx item prices)
    as [(t & p & _ & ->)|[(rest & _ & ->)|(d & z & msg & _ & _ & _ & ->)]]; done.
Qed.

Lemma build_price_map_prints catalogue_json : prints (build_price_map catalogue_json).1.
Proof.
  unfold build_price_map. destruct catalogue_json; try done.
  apply prints_for_each. apply build_price_map_row_prints.
Qed.

End MoreFacts.
End MoreFacts.

(** ** Facts about [main] before the report *)
Module MainFacts.
Import Py ComputeSales Spec MoreSpec MFacts Facts RunFacts MoreFacts.

(** Opening and writing one file leaves the others alone. *)
Lemma file_after_other path p content lines :
  String.eqb p path = false →
  file_after path content
    (FileOpenW p :: ((λ line, FileWrite p (line +:+ newline)) <$> lines))
  = content.
Proof.
  intros Hne. unfold file_after. simpl. rewrite Hne.
  induction lines as [|l lines IH]; [done|]. simpl. by rewrite Hne.
Qed.

Section MainFacts.
Context `{Builtins}.

Lemma load_json_file_prints fs path : prints (load_json_file fs path).1.
Proof. unfold load_json_file. by destruct (fs path) as [[cls msg]|v]. Qed.

(** Before the report, [main] only prints. *)
Lemma before_report_prints argv fs : prints (before_report argv fs).1.
Proof.
  unfold before_report. destruct (negb (length argv =? 3)%nat); [done|].
  apply prints_bind; [apply prints_try_except; [apply load_json_file_prints|done]|].
  intros catalogue_json.
  apply prints_bind; [apply prints_try_except; [apply load_json_file_prints|done]|].
  intros sales_json. apply prints_bind; [apply build_price_map_prints|].
  intros prices. apply prints_try_except; [apply compute_total_prints|done].
Qed.

(** [main] reaches the report only when it was given two arguments, both
    files loaded, and [build_price_map] and [compute_total] returned: every
    handler of [main] ends in [sys.exit]. *)
Lemma before_report_Ret argv fs o total details :
  before_report argv fs = (o, Ret (total, details)) →
  ∃ prog cpath spath catalogue_json sales_json oc os prices,
    argv = [prog; cpath; spath] ∧
    fs cpath = inr catalogue_json ∧ fs spath = inr sales_json ∧
    build_price_map catalogue_json = (oc, Ret prices) ∧
    compute_total prices sales_json = (os, Ret (total, details)) ∧
    o = oc ++ os.
Proof.
  unfold before_report.
  destruct argv as [|prog [|cpath [|spath [|extra argv]]]]; try done.
  cbn [length Nat.eqb negb nth]. intros Hrun.
  apply bind_ret in Hrun as (o1 & catalogue_json & o2 & Hc & Hrun & ->).
  apply try_except_Ret in Hc as [Hc|(o3 & e1 & o4 & _ & _ & Hh & _)]; [|done].
  apply bind_ret in Hrun as (o3 & sales_json & o4 & Hs & Hrun & ->).
  apply try_except_Ret in Hs as [Hs|(o5 & e1 & o6 & _ & _ & Hh & _)]; [|done].
  apply bind_ret in Hrun as (oc & prices & os & Hbuild & Hrun & ->).
  apply try_except_Ret in Hrun as [Hrun|(o5 & e1 & o6 & _ & _ & Hh & _)]; [|done].
  unfold load_json_file in Hc, Hs.
  destruct (fs cpath) as [[cls msg]|v] eqn:Hfc; [done|]. injection Hc as <- <-.
  destruct (fs spath) as [[cls msg]|v'] eqn:Hfs; [done|]. injection Hs as <- <-.
  by exists prog, cpath, spath, v, v', oc, os, prices.
Qed.

(** [main] on two arguments, once both files are loaded. *)
Lemma before_report_loaded prog cpath spath fs catalogue_json sales_json :
  fs cpath = inr catalogue_json → fs spath = inr sales_json →
  before_report [prog; cpath; spath] fs
  = build_price_map catalogue_json ≫= λ prices,
      try_except (compute_total prices sales_json) [ValueError]
        (λ exc, print ("Error processing data: " +:+ exc_str exc);; sys_exit 1).
Proof.
  intros Hc Hs. unfold before_report, load_json_file. simpl. rewrite Hc, Hs. simpl.
  unfold mbind, M_bind. simpl.
  destruct (build_price_map catalogue_json) as [o [prices|e]]; [|done].
  by destruct (try_except _ _ _) as [o' r].
Qed.

End MainFacts.
End MainFacts.

(** ** Further properties of the program *)
Module RunProperties.
Import Py ComputeSales Spec MoreSpec MFacts Facts RunFacts MoreFacts MainFacts.

Section RunProperties.
Context `{Builtins}.

(** X1.  With a number of arguments other than two, the script prints its
    usage line and exits with code 1; it reads no file and leaves
    [SalesResults.txt] as it was. *)
Theorem usage_error (argv : list string) (fs : files) (prior : option string)
    (t_start t_end : float) :
  length argv ≠ 3 →
  run argv fs prior t_start t_end =
    {| stdout := ["Usage: python computeSales.py priceCatalogue.json salesRecord.json"];
       stderr := [];
       exit_code := 1;
       results_file := prior |}.
Proof.
  intros Hlen. unfold run, main.
  destruct (Nat.eqb_spec (length argv) 3) as [Heq|_]; [done|]. reflexivity.
Qed.

(** X2.  When the catalogue file fails to load with an [OSError], a
    [JSONDecodeError] or a [ValueError], the script prints the error with
    the path, exits with code 1 and writes nothing; the sales file is not
    looked at.  Another exception is not caught and the interpreter reports
    it. *)
Theorem catalogue_load_error (prog cpath spath : string) (fs : files)
    (prior : option string) (t_start t_end : float) (cls : exc_class) (msg : string) :
  fs cpath = inl (cls, msg) →
  run [prog; cpath; spath] fs prior t_start t_end =
    if existsb (issubclass cls) [OSError; JSONDecodeError; ValueError] then
      {| stdout := ["Error reading catalogue file '" +:+ cpath +:+ "': " +:+ msg];
         stderr := [];
         exit_code := 1;
         results_file := prior |}
    else
      {| stdout := [];
         stderr := [class_name cls +:+ ": " +:+ msg];
         exit_code := 1;
         results_file := prior |}.
Proof.
  intros Hc. unfold run, main, load_json_file. simpl. rewrite Hc.
  by destruct cls.
Qed.

(** X3.  When the catalogue loads and the sales file fails to load, the
    script reports the sales file and exits with code 1 before it examines
    the catalogue: whatever the catalogue holds, no catalogue diagnostic is
    printed. *)
Theorem sales_load_error (prog cpath spath : string) (fs : files)
    (prior : option string) (t_start t_end : float) (catalogue_json : json)
    (cls : exc_class) (msg : string) :
  fs cpath = inr catalogue_json →
  fs spath = inl (cls, msg) →
  run [prog; cpath; spath] fs prior t_start t_end =
    if existsb (issubclass cls) [OSError; JSONDecodeError; ValueError] then
      {| stdout := ["Error reading sales file '" +:+ spath +:+ "': " +:+ msg];
         stderr := [];
         exit_code := 1;
         results_file := prior |}
    else
      {| stdout := [];
         stderr := [class_name cls +:+ ": " +:+ msg];
         exit_code := 1;
         results_file := prior |}.
Proof.
  intros Hc Hs. unfold run, main, load_json_file. simpl. rewrite Hc. simpl. rewrite Hs.
  by destruct cls.
Qed.

(** X4.  When both files load, the catalogue is processed, and the sales
    value is not an array, the script prints the catalogue diagnostics, then
    [Error processing data:] with the message of [compute_total], and exits
    with code 1 without writing the report. *)
Theorem sales_not_array (prog cpath spath : string) (fs : files)
    (prior : option string) (t_start t_end : float) (catalogue_json sales_json : json)
    (o : list effect) (prices : gmap string float) :
  fs cpath = inr catalogue_json →
  fs spath = inr sales_json →
  (∀ rows, sales_json ≠ JList rows) →
  build_price_map catalogue_json = (o, Ret prices) →
  run [prog; cpath; spath] fs prior t_start t_end =
    {| stdout :=
         printed o
         ++ ["Error processing data: Sales record JSON must be a list of sale objects."];
       stderr := [];
       exit_code := 1;
       results_file := prior |}.
Proof.
  intros Hc Hs Hnot Hbuild.
  assert (before_report [prog; cpath; spath] fs
          = (o ++ [Print "Error processing data: Sales record JSON must be a list of sale objects."],
             Raise (SystemExit 1))) as Hbefore.
  { rewrite (before_report_loaded _ _ _ _ _ _ Hc Hs), Hbuild.
    destruct sales_json; try done. by edestruct Hnot. }
  rewrite (run_stops _ _ _ _ _ _ _ Hbefore). f_equal.
  - by rewrite printed_app.
  - apply prints_file_after, prints_app; [|done].
    pose proof (build_price_map_prints catalogue_json) as Hp. by rewrite Hbuild in Hp.
Qed.

(** X5.  A call of [main] in which both files load and [build_price_map],
    [compute_total] and [write_results] return: [main] returns, and its
    effects are those of the three calls, in this order.  So the console
    shows the catalogue diagnostics, then the sales diagnostics, then the
    report, and [SalesResults.txt] holds the report alone, each line
    followed by a line feed: no diagnostic reaches the file, and nothing of
    an earlier report is kept.  (A call in which printing, opening or
    writing fails does not return, and nothing is said of it; nor is
    anything said of the exit code.) *)
Theorem successful_run (prog cpath spath : string) (fs : files)
    (t_start t_end : float) (catalogue_json sales_json : json)
    (oc os ow : list effect) (prices : gmap string float) (total : float)
    (details : list string) :
  fs cpath = inr catalogue_json →
  fs spath = inr sales_json →
  build_price_map catalogue_json = (oc, Ret prices) →
  compute_total prices sales_json = (os, Ret (total, details)) →
  write_results total details (t_end - t_start) = (ow, Ret ()) →
  let lines :=
    ["SALES SUMMARY"; "============="] ++ details
    ++ [""; "TOTAL_COST: " +:+ format_f 2 total;
        "ELAPSED_SECONDS: " +:+ format_f 6 (t_end - t_start)] in
  main [prog; cpath; spath] fs t_start t_end = (oc ++ os ++ ow, Ret ()) ∧
  printed (oc ++ os ++ ow) = printed oc ++ printed os ++ lines ∧
  ∀ prior,
    file_after "SalesResults.txt" prior (oc ++ os ++ ow)
    = Some (foldr (λ line rest, line +:+ String "010"%char rest) "" lines).
Proof.
  intros Hc Hs Hbuild Hcompute Hwrite lines.
  assert (before_report [prog; cpath; spath] fs = (oc ++ os, Ret (total, details)))
    as Hbefore.
  { rewrite (before_report_loaded _ _ _ _ _ _ Hc Hs), Hbuild.
    unfold mbind, M_bind. by rewrite Hcompute. }
  apply write_results_Ret in Hwrite as Hreport. destruct Hreport as [Hprinted Hfile].
  split; [|split].
  - rewrite main_before_report, Hbefore. unfold mbind, M_bind. cbn [fst snd].
    by rewrite Hwrite, <- (assoc_L (++)).
  - by rewrite !printed_app, Hprinted.
  - intros prior. rewrite (assoc_L (++)), file_after_app. apply Hfile.
Qed.

(** X6.  [main] touches a file only after everything else is done.  If an
    effect of a call of [main] is not a printed line (it opens a file or
    writes to one), then the script was given two arguments, both files
    loaded, and [build_price_map] and [compute_total] returned; and the first
    such effect is the opening of [SalesResults.txt], which comes after the
    diagnostics of the catalogue, those of the sales and every line of the
    report on the console.  So a run that stops earlier, for whatever
    reason, leaves an earlier report as it was. *)
Theorem file_touched_last (argv : list string) (fs : files) (t_start t_end : float)
    (e : effect) :
  e ∈ (main argv fs t_start t_end).1 →
  (∀ line, e ≠ Print line) →
  ∃ prog cpath spath catalogue_json sales_json oc os prices total details rest,
    argv = [prog; cpath; spath] ∧
    fs cpath = inr catalogue_json ∧ fs spath = inr sales_json ∧
    build_price_map catalogue_json = (oc, Ret prices) ∧
    compute_total prices sales_json = (os, Ret (total, details)) ∧
    (main argv fs t_start t_end).1
    = (Print <$> printed oc ++ printed os
                 ++ ["SALES SUMMARY"; "============="] ++ details
                 ++ [""; "TOTAL_COST: " +:+ format_f 2 total;
                     "ELAPSED_SECONDS: " +:+ format_f 6 (t_end - t_start)])
      ++ FileOpenW "SalesResults.txt" :: rest.
Proof.
  rewrite main_before_report. intros Hin Hnot.
  pose proof (before_report_prints argv fs) as Hp.
  destruct (before_report argv fs) as [o [[total details]|exc]] eqn:Hbefore;
    cbn [fst] in Hp.
  - apply before_report_Ret in Hbefore
      as (prog & cpath & spath & cj & sj & oc & os & prices
          & -> & Hc & Hs & Hbuild & Hcompute & ->).
    exists prog, cpath, spath, cj, sj, oc, os, prices, total, details.
    eexists. do 5 (split; [done|]).
    unfold mbind, M_bind. cbn [fst snd]. rewrite write_results_effects.
    cbv beta iota zeta. cbn [fst]. unfold prints in Hp.
    rewrite (assoc_L (++) (printed oc) (printed os)), fmap_app, <- printed_app, <- Hp.
    rewrite (assoc_L (++) (oc ++ os)). reflexivity.
  - unfold mbind, M_bind in Hin. cbn [fst] in Hin. rewrite Hp in Hin.
    apply list_elem_of_fmap in Hin as (line & -> & _). by destruct (Hnot line).
Qed.

(** X7.  [main] writes to no file but [SalesResults.txt]: any other file is
    after the run as it was before. *)
Theorem other_files_untouched (argv : list string) (fs : files)
    (t_start t_end : float) (path : string) (content : option string) :
  path ≠ RESULTS_FILENAME →
  file_after path content (main argv fs t_start t_end).1 = content.
Proof.
  intros Hpath. rewrite main_before_report.
  pose proof (before_report_prints argv fs) as Hp.
  destruct (before_report argv fs) as [o [[total details]|e]]; simpl in Hp.
  - unfold mbind, M_bind. cbn [fst snd]. rewrite write_results_effects.
    cbv beta iota zeta. cbn [fst].
    rewrite file_after_app, (prints_file_after _ _ _ Hp), file_after_app, file_after_Print.
    apply file_after_other. apply String.eqb_neq. intros <-. by apply Hpath.
  - by apply prints_file_after.
Qed.

End RunProperties.
End RunProperties.

(** ** Facts about the two loops, continued *)
Module LoopFacts.
Import Py ComputeSales Spec MoreSpec MFacts Facts RunFacts MoreFacts.

(** A binding of the map after storing entries was there before or is one
    of the entries. *)
Lemma lookup_foldl_store_Some entries (prices : gmap string float) t p :
  foldl store prices entries !! t = Some p →
  prices !! t = Some p ∨ (t, p) ∈ entries.
Proof.
  revert prices. induction entries as [|[t' p'] entries IH]; intros prices; [by left|].
  simpl. intros Hl. apply IH in Hl as [Hl|Hin]; [|right; by right].
  unfold store in Hl. simpl in Hl.
  destruct (decide (t' = t)) as [->|Hne].
  - rewrite lookup_insert_eq in Hl. injection Hl as ->. right. left.
  - rewrite lookup_insert_ne in Hl by done. by left.
Qed.

Lemma lookup_foldl_store_is_Some entries (prices : gmap string float) t :
  is_Some (prices !! t) ∨ t ∈ entries.*1 → is_Some (foldl store prices entries !! t).
Proof.
  revert prices. induction entries as [|[t' p'] entries IH]; intros prices.
  - intros [Hl|Hin]; [done|]. by inversion Hin.
  - simpl. intros Hor. apply IH. unfold store. simpl.
    destruct (decide (t' = t)) as [->|Hne].
    + left. rewrite lookup_insert_eq. by eexists.
    + rewrite lookup_insert_ne by done. destruct Hor as [Hl|Hin]; [by left|].
      right. apply elem_of_cons in Hin as [Heq|Hin]; [by destruct Hne|done].
Qed.

Section LoopFacts.
Context `{Builtins}.

(** The key of a catalogue entry is a non-empty stripped title. *)
Lemma catalogue_entry_key item t p :
  catalogue_entry item = Some (t, p) → t ≠ "" ∧ strip t = t.
Proof.
  unfold catalogue_entry. destruct item as [| | | | | |d]; try done.
  destruct (dict_get d "title" JNull) as [| | | |s| |]; try done.
  destruct (str_bool (strip s)) eqn:Hs; [|done].
  destruct (float_ _) as [o [x|e]]; [|done]. intros [= <- <-].
  split; [by apply str_bool_true|apply strip_idemp].
Qed.

(** A Sale Line comes from the same row under every row number. *)
Lemma sale_of_Some raw sale row_num :
  sale_of raw = Some sale → parse_sale_line raw row_num = ([], Ret (Some sale)).
Proof.
  unfold sale_of. destruct (parse_sale_line raw 1) as [o [[sale'|]|e]] eqn:Hp; try done.
  intros [= ->].
  apply parse_sale_line_Some in Hp as (d & p & q & -> & Hp & Hs & Hq & _ & ->).
  by apply parse_sale_line_accepts.
Qed.

Lemma parses_intro raw row_num o r :
  parse_sale_line raw row_num = (o, Ret r) → parses raw.
Proof.
  intros Hp n. pose proof (parse_sale_line_row_num raw n row_num) as Heq.
  rewrite Hp in Heq. destruct (parse_sale_line raw n) as [o' r']. simpl in Heq.
  subst r'. by eexists _, _.
Qed.

Lemma compute_rows_parses prices rows idx st o st' :
  for_each (compute_total_row prices) idx rows st = (o, Ret st') → Forall parses rows.
Proof.
  revert idx st o. induction rows as [|raw rows IH]; intros idx st o; [done|].
  simpl. intros Hloop.
  apply bind_ret in Hloop as (o1 & st1 & o2 & Hrow & Hrest & _).
  constructor; [|by eapply IH].
  unfold compute_total_row in Hrow.
  apply bind_ret in Hrow as (o3 & r & o4 & Hp & _ & _). by eapply parses_intro.
Qed.

Lemma parses_compute_rows prices rows idx st :
  Forall parses rows →
  ∃ o st', for_each (compute_total_row prices) idx rows st = (o, Ret st').
Proof.
  intros Hall. revert idx st. induction Hall as [|raw rows Hraw _ IH]; intros idx st.
  - by eexists _, _.
  - destruct (Hraw idx) as (o & r & Hp).
    simpl. pose proof (compute_total_row_spec prices idx raw st o r Hp) as Hrow.
    destruct r as [sale|]; [destruct (prices !! product sale)|];
      match type of Hrow with _ = (?o1, Ret ?st1) =>
        destruct (IH (S idx) st1) as (o2 & st2 & Hrest);
        exists (o1 ++ o2), st2; by apply (bind_eq _ _ o1 st1)
      end.
Qed.

(** What [compute_total] returns, in full. *)
Lemma compute_total_Ret prices rows o total details :
  compute_total prices (JList rows) = (o, Ret (total, details)) →
  ∃ st,
    for_each (compute_total_row prices) 1 rows
      {| total := 0%float; detail_lines := []; valid_rows := 0 |} = (o, Ret st) ∧
    total = total_cost prices rows ∧
    details
    = ("VALID_SALES_ROWS: " +:+ pretty (length (valid_sales rows)))
      :: omap (detail_of prices) (valid_sales rows).
Proof.
  unfold compute_total. intros Hrun.
  apply bind_ret in Hrun as (o1 & st & o2 & Hloop & Hret & ->).
  injection Hret as <- <- <-. rewrite app_nil_r. exists st. split; [done|].
  apply compute_rows_spec in Hloop as (Htot & Hvalid & Hdet). simpl in *.
  by rewrite Htot, Hvalid, Hdet.
Qed.

Lemma compute_total_of_loop prices rows o st :
  for_each (compute_total_row prices) 1 rows
    {| total := 0%float; detail_lines := []; valid_rows := 0 |} = (o, Ret st) →
  compute_total prices (JList rows)
  = (o, Ret (total_cost prices rows,
             ("VALID_SALES_ROWS: " +:+ pretty (length (valid_sales rows)))
             :: omap (detail_of prices) (valid_sales rows))).
Proof.
  intros Hloop. unfold compute_total. rewrite Hloop.
  apply compute_rows_spec in Hloop as (Htot & Hvalid & Hdet). simpl in *.
  unfold mbind, M_bind, mret, M_ret. rewrite app_nil_r.
  unfold total_cost, fsum. by rewrite Htot, Hvalid, Hdet.
Qed.

Lemma length_details prices sales :
  length (omap (detail_of prices) sales) = length (filter (priced prices) sales).
Proof.
  induction sales as [|sale sales IH]; [done|].
  rewrite filter_priced_cons. simpl. unfold detail_of at 1.
  destruct (prices !! product sale); simpl; [f_equal|]; exact IH.
Qed.

(** Each row leaves one diagnostic or one detail line. *)
Lemma compute_rows_account prices rows idx st o st' :
  for_each (compute_total_row prices) idx rows st = (o, Ret st') →
  length rows + length (detail_lines st) = length o + length (detail_lines st').
Proof.
  revert idx st o. induction rows as [|raw rows IH]; intros idx st o.
  - by intros [= <- <-].
  - simpl. intros Hloop.
    apply bind_ret in Hloop as (o1 & st1 & o2 & Hrow & Hrest & ->).
    apply IH in Hrest. rewrite length_app.
    assert (S (length (detail_lines st)) = length o1 + length (detail_lines st1));
      [|lia].
    destruct (parse_sale_line_cases raw idx) as [[sale Hp]|[[rest Hp]|[msg Hp]]];
      [| |by unfold compute_total_row in Hrow; rewrite Hp in Hrow].
    + rewrite (compute_total_row_spec _ _ _ _ _ _ Hp) in Hrow.
      destruct (prices !! product sale); injection Hrow as <- <-; simpl;
        [rewrite length_app; simpl; lia|done].
    + rewrite (compute_total_row_spec _ _ _ _ _ _ Hp) in Hrow.
      by injection Hrow as <- <-.
Qed.

(** An integer that [float()] cannot convert ends the row with the
    [OverflowError] of the conversion, which no handler of the row names:
    nothing is printed. *)
Lemma build_price_map_row_overflow idx d t z prices :
  dict_get d "title" JNull = JStr t → strip t ≠ "" →
  dict_get d "price" JNull = JInt z → float_of_int z = None →
  build_price_map_row idx (JDict d) prices
  = ([], Raise (Exc OverflowError "int too large to convert to float")).
Proof.
  intros Ht Hs Hp Hov. apply str_bool_true in Hs.
  unfold build_price_map_row. cbv zeta. rewrite Ht, Hs, Hp.
  unfold float_. by rewrite Hov.
Qed.

Lemma compute_total_row_overflow prices idx d p z st :
  dict_get d "Product" JNull = JStr p → strip p ≠ "" →
  dict_get d "Quantity" JNull = JInt z → float_of_int z = None →
  compute_total_row prices idx (JDict d) st
  = ([], Raise (Exc OverflowError "int too large to convert to float")).
Proof.
  intros Hp Hs Hq Hov. apply str_bool_true in Hs.
  unfold compute_total_row, parse_sale_line. cbv zeta. rewrite Hp, Hs, Hq.
  unfold coerce_quantity, float_. by rewrite Hov.
Qed.

(** The diagnostic of an invalid catalogue row names its position. *)
Lemma build_rows_reported items idx prices o prices' k item :
  for_each build_price_map_row idx items prices = (o, Ret prices') →
  items !! k = Some item → catalogue_entry item = None →
  ∃ rest, Print ("[Catalogue row " +:+ pretty (idx + k) +:+ "] " +:+ rest) ∈ o.
Proof.
  revert idx prices o k. induction items as [|item0 items IH]; intros idx prices o k; [done|].
  simpl. intros Hloop Hk Hentry.
  apply bind_ret in Hloop as (o1 & m1 & o2 & Hrow & Hrest & ->).
  destruct k as [|k]; simpl in Hk.
  - injection Hk as ->. rewrite Nat.add_0_r.
    destruct (build_price_map_row_cases idx item prices)
      as [(t & p & Hsome & _)|[(rest & _ & Heq)|(d & z & msg & _ & _ & _ & Heq)]].
    + congruence.
    + rewrite Heq in Hrow. injection Hrow as <- _. exists rest.
      apply elem_of_app. left. by left.
    + by rewrite Heq in Hrow.
  - replace (idx + S k) with (S idx + k) by lia.
    destruct (IH _ _ _ _ Hrest Hk Hentry) as (rest & Hin).
    exists rest. apply elem_of_app. by right.
Qed.

End LoopFacts.

(** *** Not-a-number in sums *)

Lemma Prim2SF_nan : Prim2SF nan = S754_nan.
Proof. reflexivity. Qed.

Lemma mul_nan_r x : (x * nan)%float = nan.
Proof.
  apply Prim2SF_inj. rewrite mul_spec, Prim2SF_nan.
  unfold SF64mul, SFmul. by destruct (Prim2SF x).
Qed.

Lemma add_nan_l x : (nan + x)%float = nan.
Proof. apply Prim2SF_inj. by rewrite add_spec, Prim2SF_nan. Qed.

Lemma add_nan_r x : (x + nan)%float = nan.
Proof.
  apply Prim2SF_inj. rewrite add_spec, Prim2SF_nan.
  unfold SF64add, SFadd. by destruct (Prim2SF x).
Qed.

Lemma foldl_add_nan l : foldl PrimFloat.add nan l = nan.
Proof. induction l as [|x l IH]; [done|]. simpl. by rewrite add_nan_l. Qed.

Lemma foldl_add_elem_nan l a : nan ∈ l → foldl PrimFloat.add a l = nan.
Proof.
  revert a. induction l as [|x l IH]; intros a Hin; [by inversion Hin|].
  simpl. apply elem_of_cons in Hin as [<-|Hin]; [|by apply IH].
  rewrite add_nan_r. apply foldl_add_nan.
Qed.

End LoopFacts.

(** ** Further properties of the catalogue and the sales rows *)
Module RowProperties.
Import Py ComputeSales Spec MoreSpec MFacts Facts RunFacts MoreFacts LoopFacts.

Section RowProperties.
Context `{Builtins}.

(** X8.  The Price Map holds the valid catalogue rows and nothing else: a
    title is a key exactly when some valid row has it as its trimmed title,
    and the price under it is the coerced price of such a row. *)
Theorem price_map_entries (items : list json) (o : list effect)
    (prices : gmap string float) (t : string) :
  build_price_map (JList items) = (o, Ret prices) →
  (is_Some (prices !! t)
   ↔ ∃ item p, item ∈ items ∧ catalogue_entry item = Some (t, p)) ∧
  ∀ p, prices !! t = Some p →
       ∃ item, item ∈ items ∧ catalogue_entry item = Some (t, p).
Proof.
  intros Hrun. unfold build_price_map in Hrun.
  apply build_rows_spec in Hrun as (-> & _).
  assert (∀ p, foldl store ∅ (omap catalogue_entry items) !! t = Some p →
               ∃ item, item ∈ items ∧ catalogue_entry item = Some (t, p)) as Hfrom.
  { intros p Hl. apply lookup_foldl_store_Some in Hl as [Hl|Hin]; [done|].
    apply list_elem_of_omap in Hin as (item & Hin & Hentry). by exists item. }
  split; [split|done].
  - intros [p Hl]. destruct (Hfrom p Hl) as (item & Hin & Hentry). by exists item, p.
  - intros (item & p & Hin & Hentry). apply lookup_foldl_store_is_Some. right.
    apply list_elem_of_fmap. exists (t, p). split; [done|].
    apply list_elem_of_omap. by exists item.
Qed.

(** X9.  Every key of the Price Map is a non-empty string without white
    space at either end. *)
Theorem price_map_keys_trimmed (items : list json) (o : list effect)
    (prices : gmap string float) (t : string) (p : float) :
  build_price_map (JList items) = (o, Ret prices) →
  prices !! t = Some p →
  t ≠ "" ∧ strip t = t.
Proof.
  intros Hrun Hl. unfold build_price_map in Hrun.
  apply build_rows_spec in Hrun as (-> & _).
  apply lookup_foldl_store_Some in Hl as [Hl|Hin]; [done|].
  apply list_elem_of_omap in Hin as (item & _ & Hentry).
  by eapply catalogue_entry_key.
Qed.

(** X10.  Every catalogue row that is not a valid entry is reported on the
    console with its position in the array, counted from 1. *)
Theorem catalogue_row_reported (items : list json) (o : list effect)
    (prices : gmap string float) (k : nat) (item : json) :
  build_price_map (JList items) = (o, Ret prices) →
  items !! k = Some item →
  catalogue_entry item = None →
  ∃ rest, Print ("[Catalogue row " +:+ pretty (S k) +:+ "] " +:+ rest) ∈ o.
Proof.
  intros Hrun Hk Hentry. unfold build_price_map in Hrun.
  change (S k) with (1 + k). by eapply build_rows_reported.
Qed.

(** X11.  An integer price that is too large for a float stops
    [build_price_map].  When the rows before it are processed without an
    exception, a row whose title is a string that is not blank and whose
    price is such an integer ends the call with the [OverflowError] of
    [float()]: the handler of the conversion names [TypeError] and
    [ValueError] only.  Nothing is printed for the row, the rows after it
    are not examined, and no Price Map is returned. *)
Theorem huge_price_raises (before after : list json) (d : list (string * json))
    (t : string) (z : Z) (o : list effect) (prices : gmap string float) :
  build_price_map (JList before) = (o, Ret prices) →
  dict_get d "title" JNull = JStr t →
  strip t ≠ "" →
  dict_get d "price" JNull = JInt z →
  float_of_int z = None →
  build_price_map (JList (before ++ JDict d :: after))
  = (o, Raise (Exc OverflowError "int too large to convert to float")).
Proof.
  unfold build_price_map. intros Hbefore Ht Hs Hp Hov.
  rewrite for_each_app, <- (app_nil_r o). apply (bind_eq _ _ _ prices); [done|].
  simpl. apply bind_raise. by apply (build_price_map_row_overflow _ _ t z).
Qed.

(** X12.  [parse_sale_line] prints nothing for a row it accepts, and for a
    row it rejects exactly one line, which starts with the row number. *)
Theorem parse_sale_line_diagnostic (raw : json) (row_num : nat) (o : list effect)
    (r : option SaleLine) :
  parse_sale_line raw row_num = (o, Ret r) →
  match r with
  | Some _ => o = []
  | None => ∃ rest, o = [Print ("[Sales row " +:+ pretty row_num +:+ "] " +:+ rest)]
  end.
Proof.
  intros Hp.
  destruct (parse_sale_line_cases raw row_num) as [[sale Heq]|[[rest Heq]|[msg Heq]]];
    rewrite Heq in Hp; [| |done].
  - by injection Hp as <- <-.
  - injection Hp as <- <-. by exists rest.
Qed.

(** X13.  The Sale Line of an accepted row is normalised: its product is
    the [Product] string without white space at either end and is not
    empty, and its quantity is the float of [Quantity]. *)
Theorem sale_line_normalised (raw : json) (row_num : nat) (o : list effect)
    (sale : SaleLine) :
  parse_sale_line raw row_num = (o, Ret (Some sale)) →
  product sale ≠ "" ∧ strip (product sale) = product sale ∧
  ∃ d p,
    raw = JDict d ∧ dict_get d "Product" JNull = JStr p ∧ product sale = strip p ∧
    float_ (dict_get d "Quantity" JNull) = ([], Ret (quantity sale)).
Proof.
  intros Hp.
  apply parse_sale_line_Some in Hp as (d & p & q & -> & Hp & Hs & Hq & _ & ->).
  simpl. split; [by apply str_bool_true|]. split; [apply strip_idemp|].
  by exists d, p.
Qed.

(** X14.  After the count line, the detail lines that [compute_total]
    returns are the lines of the accepted rows whose product is in the Price
    Map, one per such row and in input order. *)
Theorem detail_lines_in_order (prices : gmap string float) (rows : list json)
    (o : list effect) (total : float) (details : list string) :
  compute_total prices (JList rows) = (o, Ret (total, details)) →
  tail details = omap (detail_of prices) (valid_sales rows) ∧
  length (tail details) = length (filter (priced prices) (valid_sales rows)).
Proof.
  intros Hrun. apply compute_total_Ret in Hrun as (st & _ & _ & ->). simpl.
  split; [done|]. apply length_details.
Qed.

(** X15.  No row is lost: each row of the sales array leaves either one
    diagnostic on the console or one detail line. *)
Theorem every_row_accounted (prices : gmap string float) (rows : list json)
    (o : list effect) (total : float) (details : list string) :
  compute_total prices (JList rows) = (o, Ret (total, details)) →
  length rows = length (printed o) + length (tail details).
Proof.
  intros Hrun.
  pose proof (compute_total_prints prices (JList rows)) as Hprints.
  rewrite Hrun in Hprints. simpl in Hprints.
  unfold compute_total in Hrun.
  apply bind_ret in Hrun as (o1 & st & o2 & Hloop & Hret & ->).
  injection Hret as <- <- <-. rewrite app_nil_r in *.
  apply compute_rows_account in Hloop. simpl in *.
  rewrite Hprints, length_fmap in Hloop. lia.
Qed.

(** X16.  A rejected row contributes nothing: without it, [compute_total]
    returns the same total and the same detail lines (only the row numbers
    in the diagnostics change). *)
Theorem rejected_row_ignored (prices : gmap string float) (rows1 rows2 : list json)
    (raw : json) (o : list effect) (total : float) (details : list string) :
  sale_of raw = None →
  compute_total prices (JList (rows1 ++ raw :: rows2)) = (o, Ret (total, details)) →
  ∃ o', compute_total prices (JList (rows1 ++ rows2)) = (o', Ret (total, details)).
Proof.
  intros Hraw Hrun. apply compute_total_Ret in Hrun as (st & Hloop & -> & ->).
  apply compute_rows_parses in Hloop.
  apply Forall_app in Hloop as [H1 H2]. apply Forall_cons in H2 as [_ H2].
  destruct (parses_compute_rows prices (rows1 ++ rows2) 1
              {| total := 0%float; detail_lines := []; valid_rows := 0 |})
    as (o' & st' & Hloop'); [by apply Forall_app|].
  exists o'. rewrite (compute_total_of_loop _ _ _ _ Hloop').
  unfold total_cost, valid_sales. rewrite !omap_app. simpl. by rewrite Hraw.
Qed.

(** X17.  An accepted row whose product is not in the Price Map is counted
    and reported but adds nothing: appended to a sales array, it raises the
    count by one, leaves the total and the detail lines as they were, and
    prints one diagnostic with its row number and product. *)
Theorem unknown_product_row (prices : gmap string float) (rows : list json)
    (raw : json) (sale : SaleLine) (o : list effect) (total : float)
    (details : list string) :
  sale_of raw = Some sale →
  prices !! product sale = None →
  compute_total prices (JList rows) = (o, Ret (total, details)) →
  compute_total prices (JList (rows ++ [raw]))
  = (o ++ [Print (unknown_product (S (length rows)) (product sale))],
     Ret (total,
          ("VALID_SALES_ROWS: " +:+ pretty (S (length (valid_sales rows))))
          :: tail details)).
Proof.
  intros Hraw Hl Hrun. apply compute_total_Ret in Hrun as (st & Hloop & -> & ->).
  pose proof (compute_rows_spec _ _ _ _ _ _ Hloop) as (Htot & Hvalid & Hdet).
  unfold compute_total. rewrite for_each_app, Hloop. simpl.
  rewrite (compute_total_row_spec _ _ _ _ _ _ (sale_of_Some _ _ (1 + length rows) Hraw)).
  rewrite Hl. unfold mbind, M_bind, mret, M_ret. simpl in *.
  rewrite !app_nil_r, Hvalid, Hdet. unfold total_cost, fsum. by rewrite Htot.
Qed.

(** X18.  Catalogue and sales are joined on trimmed names: a sales row
    whose [Product], once trimmed, is the trimmed title of a valid catalogue
    row is priced with the price of the last such catalogue row. *)
Theorem join_on_trimmed_names (before after : list json) (item : json) (t : string)
    (p : float) (oc : list effect) (prices : gmap string float)
    (d : list (string * json)) (s : string) (q : float) :
  catalogue_entry item = Some (t, p) →
  (∀ item' p', item' ∈ after → catalogue_entry item' ≠ Some (t, p')) →
  build_price_map (JList (before ++ item :: after)) = (oc, Ret prices) →
  dict_get d "Product" JNull = JStr s →
  strip s = t →
  float_ (dict_get d "Quantity" JNull) = ([], Ret q) →
  compute_total prices (JList [JDict d])
  = ([], Ret ((0 + p * q)%float,
              ["VALID_SALES_ROWS: 1"; detail_line (sale_line d s q) p (p * q)%float])).
Proof.
  intros Hitem Hafter Hbuild Hs Ht Hq.
  assert (prices !! t = Some p) as Hl.
  { unfold build_price_map in Hbuild. apply build_rows_spec in Hbuild as (-> & _).
    rewrite omap_app. simpl. rewrite Hitem. apply lookup_foldl_store_last.
    intros Hin. apply list_elem_of_fmap in Hin as ([t' p'] & Heq & Hin).
    simpl in Heq. subst t'.
    apply list_elem_of_omap in Hin as (item' & Hin & Hentry). by eapply Hafter. }
  apply catalogue_entry_key in Hitem as [Hne _].
  assert (str_bool (strip s) = true) as Hnonblank by (apply str_bool_true; congruence).
  unfold compute_total. simpl.
  rewrite (compute_total_row_spec _ _ _ _ _ _
             (parse_sale_line_accepts d s q 1 Hs Hnonblank Hq)).
  simpl. rewrite Ht, Hl. reflexivity.
Qed.

(** X19.  A not-a-number quantity in one priced row makes the whole total
    not-a-number, whatever the other rows hold; the report then shows
    [TOTAL_COST: nan]. *)
Theorem nan_quantity_spoils_total (prices : gmap string float) (rows : list json)
    (o : list effect) (total : float) (details : list string) (sale : SaleLine) :
  compute_total prices (JList rows) = (o, Ret (total, details)) →
  sale ∈ valid_sales rows →
  is_Some (prices !! product sale) →
  quantity sale = nan →
  total = nan ∧ format_f 2 total = "nan".
Proof.
  intros Hrun Hin Hpriced Hnan.
  apply compute_total_Ret in Hrun as (st & _ & -> & _).
  assert (total_cost prices rows = nan) as ->; [|done].
  unfold total_cost, fsum. apply foldl_add_elem_nan.
  apply list_elem_of_fmap. exists sale. rewrite Hnan, mul_nan_r. split; [done|].
  by apply list_elem_of_filter.
Qed.

(** X20.  An integer quantity that is too large for a float stops
    [compute_total].  When the rows before it are processed without an
    exception, a row whose product is a string that is not blank and whose
    quantity is such an integer ends the call with the [OverflowError] of
    [float()], whatever the Price Map holds.  Nothing is printed for the
    row, the rows after it are not examined, and neither a total nor a
    detail line is returned.  The exception is not a [ValueError]: the
    handler of [main] around [compute_total] does not catch it. *)
Theorem huge_quantity_raises (prices : gmap string float) (before after : list json)
    (d : list (string * json)) (p : string) (z : Z) (o : list effect)
    (total : float) (details : list string) :
  compute_total prices (JList before) = (o, Ret (total, details)) →
  dict_get d "Product" JNull = JStr p →
  strip p ≠ "" →
  dict_get d "Quantity" JNull = JInt z →
  float_of_int z = None →
  compute_total prices (JList (before ++ JDict d :: after))
  = (o, Raise (Exc OverflowError "int too large to convert to float")) ∧
  catches [ValueError] (Exc OverflowError "int too large to convert to float") = false.
Proof.
  intros Hbefore Hp Hs Hq Hov. split; [|done].
  apply compute_total_Ret in Hbefore as (st & Hloop & _).
  unfold compute_total. apply bind_raise.
  rewrite for_each_app, <- (app_nil_r o). apply (bind_eq _ _ _ st); [done|].
  simpl. apply bind_raise. by apply (compute_total_row_overflow _ _ _ p z).
Qed.

End RowProperties.
End RowProperties.

(** ** The further properties at concrete inputs *)
Module MoreWitnesses.
Import Py ComputeSales Spec MoreSpec Facts MoreFacts Reference Examples MoreExamples.
Import RunProperties RowProperties.

Lemma usage_error_witness :
  length ["computeSales.py"; "cat.json"] ≠ 3 ∧
  run ["computeSales.py"; "cat.json"] fs2 (Some "old") 1 2 =
    {| stdout := ["Usage: python computeSales.py priceCatalogue.json salesRecord.json"];
       stderr := [];
       exit_code := 1;
       results_file := Some "old" |}.
Proof.
  assert (length ["computeSales.py"; "cat.json"] ≠ 3) as Hlen by discriminate.
  split; [exact Hlen|].
  exact (usage_error ["computeSales.py"; "cat.json"] fs2 (Some "old") 1 2 Hlen).
Defined.

Lemma catalogue_load_error_witness :
  fs2 "missing.json" = inl (OSError, missing_message) ∧
  run ["computeSales.py"; "missing.json"; "sales.json"] fs2 (Some "old") 1 2 =
    {| stdout := ["Error reading catalogue file 'missing.json': " +:+ missing_message];
       stderr := [];
       exit_code := 1;
       results_file := Some "old" |}.
Proof.
  split; [reflexivity|].
  exact (catalogue_load_error "computeSales.py" "missing.json" "sales.json" fs2
           (Some "old") 1 2 OSError missing_message eq_refl).
Defined.

Lemma sales_load_error_witness :
  fs2 "obj.json" = inr (JDict []) ∧
  fs2 "missing.json" = inl (OSError, missing_message) ∧
  run ["computeSales.py"; "obj.json"; "missing.json"] fs2 (Some "old") 1 2 =
    {| stdout := ["Error reading sales file 'missing.json': " +:+ missing_message];
       stderr := [];
       exit_code := 1;
       results_file := Some "old" |}.
Proof.
  split; [reflexivity|]. split; [reflexivity|].
  exact (sales_load_error "computeSales.py" "obj.json" "missing.json" fs2
           (Some "old") 1 2 (JDict []) OSError missing_message eq_refl eq_refl).
Defined.

Lemma sales_not_array_witness :
  fs2 "cat.json" = inr (JList catalogue) ∧
  fs2 "obj.json" = inr (JDict []) ∧
  (∀ rows, JDict [] ≠ JList rows) ∧
  build_price_map (JList catalogue) = (catalogue_effects, Ret prices) ∧
  run ["computeSales.py"; "cat.json"; "obj.json"] fs2 (Some "old") 1 2 =
    {| stdout :=
         printed catalogue_effects
         ++ ["Error processing data: Sales record JSON must be a list of sale objects."];
       stderr := [];
       exit_code := 1;
       results_file := Some "old" |}.
Proof.
  assert (∀ rows, JDict [] ≠ JList rows) as Hnot by (intros rows; discriminate).
  assert (build_price_map (JList catalogue) = (catalogue_effects, Ret prices)) as Hbuild
    by (vm_compute; reflexivity).
  split; [reflexivity|]. split; [reflexivity|]. split; [exact Hnot|].
  split; [exact Hbuild|].
  exact (sales_not_array "computeSales.py" "cat.json" "obj.json" fs2 (Some "old") 1 2
           (JList catalogue) (JDict []) catalogue_effects prices
           eq_refl eq_refl Hnot Hbuild).
Defined.

Lemma successful_run_witness :
  fs2 "cat.json" = inr (JList catalogue) ∧
  fs2 "sales.json" = inr (JList sales) ∧
  build_price_map (JList catalogue) = (catalogue_effects, Ret prices) ∧
  compute_total prices (JList sales) = (sales_effects, Ret (2.5%float, sales_details)) ∧
  write_results 2.5 sales_details (1.5 - 1) = (run_report_effects, Ret ()) ∧
  main ["computeSales.py"; "cat.json"; "sales.json"] fs2 1 1.5
  = (catalogue_effects ++ sales_effects ++ run_report_effects, Ret ()) ∧
  printed (catalogue_effects ++ sales_effects ++ run_report_effects) = run_printed ∧
  file_after "SalesResults.txt" (Some "an earlier report")
    (catalogue_effects ++ sales_effects ++ run_report_effects)
  = Some run_text.
Proof.
  assert (build_price_map (JList catalogue) = (catalogue_effects, Ret prices)) as Hbuild
    by (vm_compute; reflexivity).
  assert (compute_total prices (JList sales)
          = (sales_effects, Ret (2.5%float, sales_details))) as Hcompute
    by (vm_compute; reflexivity).
  assert (write_results 2.5 sales_details (1.5 - 1) = (run_report_effects, Ret ()))
    as Hwrite by (vm_compute; reflexivity).
  pose proof (successful_run "computeSales.py" "cat.json" "sales.json" fs2 1 1.5
                (JList catalogue) (JList sales) catalogue_effects sales_effects
                run_report_effects prices 2.5 sales_details
                eq_refl eq_refl Hbuild Hcompute Hwrite) as (Hmain & Hprinted & Hfile).
  split; [reflexivity|]. split; [reflexivity|]. split; [exact Hbuild|].
  split; [exact Hcompute|]. split; [exact Hwrite|]. split; [exact Hmain|].
  split; [exact Hprinted|]. exact (Hfile (Some "an earlier report")).
Defined.

Lemma file_touched_last_witness :
  FileOpenW "SalesResults.txt"
    ∈ (main ["computeSales.py"; "cat.json"; "sales.json"] fs2 1 1.5).1 ∧
  (∀ line, FileOpenW "SalesResults.txt" ≠ Print line) ∧
  ∃ prog cpath spath catalogue_json sales_json oc os prices total details rest,
    ["computeSales.py"; "cat.json"; "sales.json"] = [prog; cpath; spath] ∧
    fs2 cpath = inr catalogue_json ∧ fs2 spath = inr sales_json ∧
    build_price_map catalogue_json = (oc, Ret prices) ∧
    compute_total prices sales_json = (os, Ret (total, details)) ∧
    (main ["computeSales.py"; "cat.json"; "sales.json"] fs2 1 1.5).1
    = (Print <$> printed oc ++ printed os
                 ++ ["SALES SUMMARY"; "============="] ++ details
                 ++ [""; "TOTAL_COST: " +:+ format_f 2 total;
                     "ELAPSED_SECONDS: " +:+ format_f 6 (1.5 - 1)])
      ++ FileOpenW "SalesResults.txt" :: rest.
Proof.
  assert (FileOpenW "SalesResults.txt"
            ∈ (main ["computeSales.py"; "cat.json"; "sales.json"] fs2 1 1.5).1) as Hin.
  { apply (list_elem_of_lookup_2 _ 14). vm_compute. reflexivity. }
  assert (∀ line, FileOpenW "SalesResults.txt" ≠ Print line) as Hnot
    by (intros line; discriminate).
  split; [exact Hin|]. split; [exact Hnot|].
  exact (file_touched_last ["computeSales.py"; "cat.json"; "sales.json"] fs2 1 1.5
           (FileOpenW "SalesResults.txt") Hin Hnot).
Defined.

Lemma other_files_untouched_witness :
  "notes.txt" ≠ RESULTS_FILENAME ∧
  file_after "notes.txt" (Some "kept")
    (main ["computeSales.py"; "cat.json"; "sales.json"] fs2 1 2).1 = Some "kept".
Proof.
  assert ("notes.txt" ≠ RESULTS_FILENAME) as Hne by discriminate.
  split; [exact Hne|].
  exact (other_files_untouched ["computeSales.py"; "cat.json"; "sales.json"] fs2 1 2
           "notes.txt" (Some "kept") Hne).
Defined.

Lemma price_map_entries_witness :
  build_price_map (JList catalogue) = (catalogue_effects, Ret prices) ∧
  (is_Some (prices !! "Widget")
   ↔ ∃ item p, item ∈ catalogue ∧ catalogue_entry item = Some ("Widget", p)) ∧
  ∀ p, prices !! "Widget" = Some p →
       ∃ item, item ∈ catalogue ∧ catalogue_entry item = Some ("Widget", p).
Proof.
  assert (build_price_map (JList catalogue) = (catalogue_effects, Ret prices)) as Hbuild
    by (vm_compute; reflexivity).
  split; [exact Hbuild|].
  exact (price_map_entries catalogue catalogue_effects prices "Widget" Hbuild).
Defined.

Lemma price_map_keys_trimmed_witness :
  build_price_map (JList catalogue) = (catalogue_effects, Ret prices) ∧
  prices !! "Widget" = Some 2.5%float ∧
  "Widget" ≠ "" ∧ strip "Widget" = "Widget".
Proof.
  assert (build_price_map (JList catalogue) = (catalogue_effects, Ret prices)) as Hbuild
    by (vm_compute; reflexivity).
  assert (prices !! "Widget" = Some 2.5%float) as Hl by (vm_compute; reflexivity).
  split; [exact Hbuild|]. split; [exact Hl|].
  exact (price_map_keys_trimmed catalogue catalogue_effects prices "Widget" 2.5
           Hbuild Hl).
Defined.

Lemma catalogue_row_reported_witness :
  build_price_map (JList catalogue) = (catalogue_effects, Ret prices) ∧
  catalogue !! 1 = Some (JInt 3) ∧
  catalogue_entry (JInt 3) = None ∧
  ∃ rest, Print ("[Catalogue row " +:+ pretty 2 +:+ "] " +:+ rest) ∈ catalogue_effects.
Proof.
  assert (build_price_map (JList catalogue) = (catalogue_effects, Ret prices)) as Hbuild
    by (vm_compute; reflexivity).
  split; [exact Hbuild|]. split; [reflexivity|]. split; [reflexivity|].
  exact (catalogue_row_reported catalogue catalogue_effects prices 1 (JInt 3)
           Hbuild eq_refl eq_refl).
Defined.

Lemma huge_price_raises_witness :
  build_price_map (JList [JNull])
  = ([Print "[Catalogue row 1] Invalid item (not an object). Skipping."], Ret ∅) ∧
  dict_get huge_price_row "title" JNull = JStr "A" ∧
  strip "A" ≠ "" ∧
  dict_get huge_price_row "price" JNull = JInt (10 ^ 400) ∧
  float_of_int (10 ^ 400) = None ∧
  build_price_map (JList ([JNull] ++ JDict huge_price_row :: catalogue_after))
  = ([Print "[Catalogue row 1] Invalid item (not an object). Skipping."],
     Raise (Exc OverflowError "int too large to convert to float")).
Proof.
  assert (strip "A" ≠ "") as Hs by (vm_compute; discriminate).
  assert (float_of_int (10 ^ 400) = None) as Hov by (vm_compute; reflexivity).
  split; [reflexivity|]. split; [reflexivity|]. split; [exact Hs|].
  split; [reflexivity|]. split; [exact Hov|].
  exact (huge_price_raises [JNull] catalogue_after huge_price_row "A" (10 ^ 400)
           [Print "[Catalogue row 1] Invalid item (not an object). Skipping."] ∅
           eq_refl eq_refl Hs eq_refl Hov).
Defined.

Lemma parse_sale_line_diagnostic_witness :
  parse_sale_line (JStr "x") 5
  = ([Print "[Sales row 5] Invalid row (not an object). Skipping."], Ret None) ∧
  ∃ rest,
    [Print "[Sales row 5] Invalid row (not an object). Skipping."]
    = [Print ("[Sales row " +:+ pretty 5 +:+ "] " +:+ rest)].
Proof.
  assert (parse_sale_line (JStr "x") 5
          = ([Print "[Sales row 5] Invalid row (not an object). Skipping."], Ret None))
    as Hrun by (vm_compute; reflexivity).
  split; [exact Hrun|].
  exact (parse_sale_line_diagnostic (JStr "x") 5 _ None Hrun).
Defined.

Lemma sale_line_normalised_witness :
  parse_sale_line (JDict returned_row) 4
  = ([], Ret (Some (sale_line returned_row " Widget" (-2)))) ∧
  product (sale_line returned_row " Widget" (-2)) = "Widget" ∧
  strip "Widget" = "Widget".
Proof.
  assert (parse_sale_line (JDict returned_row) 4
          = ([], Ret (Some (sale_line returned_row " Widget" (-2))))) as Hrun
    by (vm_compute; reflexivity).
  split; [exact Hrun|]. split; [reflexivity|].
  exact (proj1 (proj2 (sale_line_normalised _ _ _ _ Hrun))).
Defined.

Lemma detail_lines_in_order_witness :
  compute_total prices (JList sales) = (sales_effects, Ret (2.5%float, sales_details)) ∧
  tail sales_details = omap (detail_of prices) (valid_sales sales) ∧
  length (tail sales_details) = length (filter (priced prices) (valid_sales sales)).
Proof.
  assert (compute_total prices (JList sales)
          = (sales_effects, Ret (2.5%float, sales_details))) as Hrun
    by (vm_compute; reflexivity).
  split; [exact Hrun|]. exact (detail_lines_in_order _ _ _ _ _ Hrun).
Defined.

Lemma every_row_accounted_witness :
  compute_total prices (JList sales) = (sales_effects, Ret (2.5%float, sales_details)) ∧
  length sales = length (printed sales_effects) + length (tail sales_details).
Proof.
  assert (compute_total prices (JList sales)
          = (sales_effects, Ret (2.5%float, sales_details))) as Hrun
    by (vm_compute; reflexivity).
  split; [exact Hrun|]. exact (every_row_accounted _ _ _ _ _ Hrun).
Defined.

Lemma rejected_row_ignored_witness :
  sale_of rejected_row = None ∧
  compute_total prices (JList (firstn 1 sales ++ rejected_row :: skipn 2 sales))
  = (sales_effects, Ret (2.5%float, sales_details)) ∧
  ∃ o',
    compute_total prices (JList (firstn 1 sales ++ skipn 2 sales))
    = (o', Ret (2.5%float, sales_details)).
Proof.
  assert (sale_of rejected_row = None) as Hraw by (vm_compute; reflexivity).
  assert (compute_total prices (JList (firstn 1 sales ++ rejected_row :: skipn 2 sales))
          = (sales_effects, Ret (2.5%float, sales_details))) as Hrun
    by (vm_compute; reflexivity).
  split; [exact Hraw|]. split; [exact Hrun|].
  exact (rejected_row_ignored _ _ _ _ _ _ _ Hraw Hrun).
Defined.

Lemma unknown_product_row_witness :
  sale_of unknown_row = Some (sale_line null_id_row "Nope" 2) ∧
  prices !! "Nope" = None ∧
  compute_total prices (JList (firstn 1 sales))
  = ([], Ret (7.5%float, first_sale_details)) ∧
  compute_total prices (JList (firstn 1 sales ++ [unknown_row]))
  = ([] ++ [Print (unknown_product 2 "Nope")],
     Ret (7.5%float,
          ("VALID_SALES_ROWS: " +:+ pretty (S (length (valid_sales (firstn 1 sales)))))
          :: tail first_sale_details)).
Proof.
  assert (sale_of unknown_row = Some (sale_line null_id_row "Nope" 2)) as Hraw
    by (vm_compute; reflexivity).
  assert (prices !! "Nope" = None) as Hl by (vm_compute; reflexivity).
  assert (compute_total prices (JList (firstn 1 sales))
          = ([], Ret (7.5%float, first_sale_details))) as Hrun.
  { vm_compute. reflexivity. }
  split; [exact Hraw|]. split; [exact Hl|]. split; [exact Hrun|].
  exact (unknown_product_row prices (firstn 1 sales) unknown_row _ [] 7.5
           first_sale_details Hraw Hl Hrun).
Defined.

Lemma join_on_trimmed_names_witness :
  catalogue_entry widget_again = Some ("Widget", 2.5%float) ∧
  build_price_map (JList (catalogue_before ++ widget_again :: catalogue_after))
  = (catalogue_effects, Ret prices) ∧
  dict_get returned_row "Product" JNull = JStr " Widget" ∧
  strip " Widget" = "Widget" ∧
  float_ (dict_get returned_row "Quantity" JNull) = ([], Ret (-2)%float) ∧
  compute_total prices (JList [JDict returned_row])
  = ([], Ret ((0 + 2.5 * -2)%float,
              ["VALID_SALES_ROWS: 1";
               detail_line (sale_line returned_row " Widget" (-2)) 2.5 (2.5 * -2)%float])).
Proof.
  assert (build_price_map (JList (catalogue_before ++ widget_again :: catalogue_after))
          = (catalogue_effects, Ret prices)) as Hbuild by (vm_compute; reflexivity).
  assert (∀ item' p',
    item' ∈ catalogue_after → catalogue_entry item' ≠ Some ("Widget", p')) as Hafter.
  { intros item' p' Hin. unfold catalogue_after in Hin.
    apply elem_of_cons in Hin as [->|Hin]; [discriminate|].
    apply elem_of_cons in Hin as [->|Hin]; [discriminate|].
    by inversion Hin. }
  split; [reflexivity|]. split; [exact Hbuild|]. do 3 (split; [reflexivity|]).
  exact (join_on_trimmed_names catalogue_before catalogue_after widget_again "Widget"
           2.5 catalogue_effects prices returned_row " Widget" (-2)
           eq_refl Hafter Hbuild eq_refl eq_refl eq_refl).
Defined.

Lemma nan_quantity_spoils_total_witness :
  compute_total prices (JList (sales ++ [nan_row]))
  = (sales_effects, Ret (nan, nan_details)) ∧
  nan_sale ∈ valid_sales (sales ++ [nan_row]) ∧
  is_Some (prices !! product nan_sale) ∧
  quantity nan_sale = nan ∧
  nan = nan ∧ format_f 2 nan = "nan".
Proof.
  assert (compute_total prices (JList (sales ++ [nan_row]))
          = (sales_effects, Ret (nan, nan_details))) as Hrun
    by (vm_compute; reflexivity).
  assert (nan_sale ∈ valid_sales (sales ++ [nan_row])) as Hin.
  { change (valid_sales (sales ++ [nan_row]))
      with (valid_sales sales ++ [nan_sale]).
    apply elem_of_app. right. left. }
  assert (is_Some (prices !! product nan_sale)) as Hpriced
    by (exists 2.5%float; vm_compute; reflexivity).
  split; [exact Hrun|]. split; [exact Hin|]. split; [exact Hpriced|].
  split; [reflexivity|].
  exact (nan_quantity_spoils_total _ _ _ _ _ nan_sale Hrun Hin Hpriced eq_refl).
Defined.

Lemma huge_quantity_raises_witness :
  compute_total prices (JList sales_before)
  = (sales_before_effects, Ret (7.5%float, sales_before_details)) ∧
  dict_get huge_quantity_row "Product" JNull = JStr "A" ∧
  strip "A" ≠ "" ∧
  dict_get huge_quantity_row "Quantity" JNull = JInt (10 ^ 400) ∧
  float_of_int (10 ^ 400) = None ∧
  compute_total prices (JList (sales_before ++ JDict huge_quantity_row :: [JStr "x"]))
  = (sales_before_effects, Raise (Exc OverflowError "int too large to convert to float")) ∧
  catches [ValueError] (Exc OverflowError "int too large to convert to float") = false.
Proof.
  assert (compute_total prices (JList sales_before)
          = (sales_before_effects, Ret (7.5%float, sales_before_details))) as Hrun
    by (vm_compute; reflexivity).
  assert (strip "A" ≠ "") as Hs by (vm_compute; discriminate).
  assert (float_of_int (10 ^ 400) = None) as Hov by (vm_compute; reflexivity).
  split; [exact Hrun|]. split; [reflexivity|]. split; [exact Hs|].
  split; [reflexivity|]. split; [exact Hov|].
  exact (huge_quantity_raises prices sales_before [JStr "x"] huge_quantity_row "A"
           (10 ^ 400) sales_before_effects 7.5 sales_before_details
           Hrun eq_refl Hs eq_refl Hov).
Defined.

End MoreWitnesses.
